(** * plugin-transport-stdio: the stdio JSON-RPC bridge

    A shallow embedding of [internal/transport.go], [internal/handler.go]
    and [internal/translator.go] (the value translator), and the properties
    of the dispatch-and-translation engine proved over it.

    Layout of the development:
    - [Go]: the few Go notions the code leans on (errors, results, the
      dynamic type [any]);
    - [structpb]: the protobuf well-known [Struct]/[Value] types, and
      further down [NewValue] and [NewStruct], as the code uses them;
    - [pluginv1] and [protocol]: the message types of the two protocols;
    - [Runtime], [Sender], [Writer]: the interfaces the bridge calls into;
    - the translator, the handlers, the dispatcher and the run loop;
    - [TestRuntime]: the doubles of the repository's tests (a mock sender,
      a buffer writer), used to run the model on concrete inputs;
    - the theorems. *)

From Stdlib Require Import PrimFloat FloatOps SpecFloat ZArith Ascii DecimalString.
From stdpp Require Import gmap strings list fin_maps sorting.

Set Warnings "-register-all".
Set Default Proof Using "Type".

Local Open Scope string_scope.
Local Open Scope list_scope.

(* ===================================================================== *)
(** ** Go: errors, results and dynamically typed values                   *)
(* ===================================================================== *)

Module Go.

(** A Go [error] is observed only through its [Error()] text. *)
Definition error := string.

(** A Go result pair [(value, err)] with exactly one side meaningful. *)
Inductive Result (A : Type) :=
  | Ok (a : A)
  | Err (e : error).
Global Arguments Ok {A} a.
Global Arguments Err {A} e.

(** The Go interface type [any], restricted to the dynamic types that reach
    this program: what [encoding/json] decodes into an [any]
    (nil, bool, float64, string, []any, map[string]any), and [AOther] for a
    value of any other dynamic type, carrying its [%T] name.  A
    [map[string]any] may be the nil map: [AMap None]. *)
Inductive any :=
  | ANil
  | ABool (b : bool)
  | AFloat64 (f : float)
  | AString (s : string)
  | ASlice (l : list any)
  | AMap (m : option (gmap string any))
  | AOther (ty : string).

(** [s] occurs in [t] as a contiguous substring ([strings.Contains t s]). *)
Definition Contains (t s : string) : Prop :=
  exists pre post, t = pre +:+ s +:+ post.

(** [NaN], [+Inf] and [-Inf]: the float64 values JSON has no syntax for. *)
Definition not_finite (f : float) : bool :=
  PrimFloat.is_nan f || PrimFloat.is_infinity f.

Fixpoint has_unsupported_float (v : any) : bool :=
  match v with
  | AFloat64 f => not_finite f
  | ASlice l => existsb has_unsupported_float l
  | AMap (Some m) =>
      map_fold (fun _ x acc => has_unsupported_float x || acc) false m
  | _ => false
  end.

Fixpoint any_size (v : any) : nat :=
  match v with
  | AMap (Some m) => S (map_fold (fun _ x acc => any_size x + acc) 0 m)
  | ASlice l => S (foldr (fun x acc => any_size x + acc) 0 l)
  | _ => 1
  end.

End Go.
Import Go.

(* ===================================================================== *)
(** ** structpb: google.golang.org/protobuf/types/known/structpb          *)
(* ===================================================================== *)

Module structpb.

(** A term of [Value] is a Go [*structpb.Value]: the nil pointer
    ([NilValue]), or a message whose [Kind] oneof is unset ([KindUnset]) or
    holds one of the six kinds.  [StructValue] and [ListValue] hold pointers
    in turn, [None] being nil. A [*Struct] is an [option] of its [Fields]. *)
Inductive Value :=
  | NilValue
  | KindUnset
  | NullValue
  | NumberValue (f : float)
  | StringValue (s : string)
  | BoolValue (b : bool)
  | StructValue (s : option (gmap string Value))
  | ListValue (l : option (list Value)).

Abbreviation Fields := (gmap string Value).
Abbreviation Struct := (option (gmap string Value)).

(** [Struct.GetFields]: nil-safe. *)
Definition GetFields (s : Struct) : gmap string Value := default ∅ s.

(** [Value.GetStringValue]: the string of a string kind, and the empty
    string for every other kind and for nil. *)
Definition GetStringValue (v : Value) : string :=
  match v with
  | StringValue s => s
  | _ => EmptyString
  end.

Fixpoint Value_size (v : Value) : nat :=
  match v with
  | StructValue (Some m) => S (map_fold (fun _ x acc => Value_size x + acc) 0 m)
  | ListValue (Some l) => S (foldr (fun x acc => Value_size x + acc) 0 l)
  | _ => 1
  end.

End structpb.
Import structpb.

(* ===================================================================== *)
(** ** pluginv1: the backend's request and response messages              *)
(* ===================================================================== *)

(** The generated protobuf types of [gen-go/orchestra/plugin/v1], with the
    fields this program reads or writes.  Message pointers are [option]s;
    the getters are nil-safe, as generated getters are. *)
Module pluginv1.

Record ToolDefinition := {
  ToolDefinition_Name : string;
  ToolDefinition_Description : string;
  ToolDefinition_InputSchema : Struct;
}.

Record ListToolsResponse := { ListToolsResponse_Tools : list (option ToolDefinition) }.

Record ToolResponse := {
  ToolResponse_Success : bool;
  ToolResponse_Result : Struct;
  ToolResponse_ErrorCode : string;
  ToolResponse_ErrorMessage : string;
}.

Record PromptArgument := {
  PromptArgument_Name : string;
  PromptArgument_Description : string;
  PromptArgument_Required : bool;
}.

Record PromptDefinition := {
  PromptDefinition_Name : string;
  PromptDefinition_Description : string;
  PromptDefinition_Arguments : list (option PromptArgument);
}.

Record ListPromptsResponse := { ListPromptsResponse_Prompts : list (option PromptDefinition) }.

Record ContentBlock := { ContentBlock_Type : string; ContentBlock_Text : string }.

Record PromptMessage := {
  PromptMessage_Role : string;
  PromptMessage_Content : option ContentBlock;
}.

Record PromptGetResponse := {
  PromptGetResponse_Description : string;
  PromptGetResponse_Messages : list (option PromptMessage);
}.

Record ToolRequest := {
  ToolName : string;
  Arguments : Struct;
  CallerPlugin : string;
}.

Record PromptGetRequest := {
  PromptName : string;
  PromptArguments : option (gmap string string);
}.

(** The [Request] oneof of a [PluginRequest], for the four kinds sent. *)
Inductive PluginRequest_Request :=
  | PluginRequest_ListTools
  | PluginRequest_ToolCall (r : ToolRequest)
  | PluginRequest_ListPrompts
  | PluginRequest_PromptGet (r : PromptGetRequest).

Record PluginRequest := {
  RequestId : string;
  Request : PluginRequest_Request;
}.

(** The [Response] oneof of a [PluginResponse]: unset, one of the four
    kinds this program asks for (each holding a message pointer), or any
    other kind of the schema. *)
Inductive PluginResponse_Response :=
  | PluginResponse_Unset
  | PluginResponse_ListTools (r : option ListToolsResponse)
  | PluginResponse_ToolCall (r : option ToolResponse)
  | PluginResponse_ListPrompts (r : option ListPromptsResponse)
  | PluginResponse_PromptGet (r : option PromptGetResponse)
  | PluginResponse_Other (kind : string).

Record PluginResponse := {
  ResponseRequestId : string;
  Response : PluginResponse_Response;
}.

Definition GetListTools (x : option PluginResponse) : option ListToolsResponse :=
  match x with
  | Some {| Response := PluginResponse_ListTools r |} => r
  | _ => None
  end.

Definition GetToolCall (x : option PluginResponse) : option ToolResponse :=
  match x with
  | Some {| Response := PluginResponse_ToolCall r |} => r
  | _ => None
  end.

Definition GetListPrompts (x : option PluginResponse) : option ListPromptsResponse :=
  match x with
  | Some {| Response := PluginResponse_ListPrompts r |} => r
  | _ => None
  end.

Definition GetPromptGet (x : option PluginResponse) : option PromptGetResponse :=
  match x with
  | Some {| Response := PluginResponse_PromptGet r |} => r
  | _ => None
  end.

Definition GetSuccess (x : option ToolResponse) : bool :=
  match x with Some r => ToolResponse_Success r | None => false end.
Definition GetErrorMessage (x : option ToolResponse) : string :=
  match x with Some r => ToolResponse_ErrorMessage r | None => EmptyString end.
Definition GetErrorCode (x : option ToolResponse) : string :=
  match x with Some r => ToolResponse_ErrorCode r | None => EmptyString end.
Definition GetResult (x : option ToolResponse) : Struct :=
  match x with Some r => ToolResponse_Result r | None => None end.

Definition GetInputSchema (x : option ToolDefinition) : Struct :=
  match x with Some d => ToolDefinition_InputSchema d | None => None end.
Definition ToolDefinition_GetName (x : option ToolDefinition) : string :=
  match x with Some d => ToolDefinition_Name d | None => EmptyString end.
Definition ToolDefinition_GetDescription (x : option ToolDefinition) : string :=
  match x with Some d => ToolDefinition_Description d | None => EmptyString end.

End pluginv1.
Import pluginv1.

(* ===================================================================== *)
(** ** protocol: the JSON-RPC and MCP types of sdk-go                     *)
(* ===================================================================== *)

Module protocol.

(** The JSON-RPC 2.0 error codes (the table of [docs/PROTOCOL.md]). *)
Definition ParseError : Z := -32700.
Definition InvalidRequest : Z := -32600.
Definition MethodNotFound : Z := -32601.
Definition InvalidParams : Z := -32602.
Definition InternalError : Z := -32603.

(** A request envelope.  [ID] has the Go type [any]: the code prints it with
    [%v] and copies it into the response; an [id] that is absent from the
    line decodes to nil.  [Params] is the raw text of the member, [None]
    when the slice is nil. *)
Record JSONRPCRequest := {
  req_JSONRPC : string;
  req_ID : any;
  req_Method : string;
  req_Params : option string;
}.

Record JSONRPCError := {
  Code : Z;
  Message : string;
}.

Record MCPContent := { Type_ : string; Text : string }.

Record MCPToolResult := {
  Content : list MCPContent;
  IsError : bool;
}.

Record MCPToolDefinition := {
  MCPToolDefinition_Name : string;
  MCPToolDefinition_Description : string;
  MCPToolDefinition_InputSchema : any;
}.

Record MCPServerCapabilities := {
  Tools : option unit;
  Prompts : option unit;
}.

Record MCPServerInfo := { ServerName : string; ServerVersion : string }.

Record MCPInitializeResult := {
  ProtocolVersion : string;
  Capabilities : MCPServerCapabilities;
  ServerInfo : MCPServerInfo;
}.

Record MCPPromptArgument := {
  MCPPromptArgument_Name : string;
  MCPPromptArgument_Description : string;
  MCPPromptArgument_Required : bool;
}.

Record MCPPromptDefinition := {
  MCPPromptDefinition_Name : string;
  MCPPromptDefinition_Description : string;
  MCPPromptDefinition_Arguments : list MCPPromptArgument;
}.

Record MCPPromptMessage := {
  MCPPromptMessage_Role : string;
  MCPPromptMessage_Content : MCPContent;
}.

Record MCPPromptResult := {
  MCPPromptResult_Description : string;
  MCPPromptResult_Messages : list MCPPromptMessage;
}.

(** What the handlers store in the [Result] field (a Go [any]): one
    constructor per dynamic type stored there.  [toolsListResult] and
    [promptsListResult] are the one-field structs of [handler.go]. *)
Inductive ResultValue :=
  | Result_MCPInitializeResult (r : MCPInitializeResult)
  | Result_any (v : any)
  | Result_toolsListResult (tools : list MCPToolDefinition)
  | Result_MCPToolResult (r : MCPToolResult)
  | Result_promptsListResult (prompts : list MCPPromptDefinition)
  | Result_MCPPromptResult (r : MCPPromptResult).

Record JSONRPCResponse := {
  JSONRPC : string;
  ID : any;
  Result_ : option ResultValue;
  Error : option JSONRPCError;
}.

End protocol.
Import protocol.

(* ===================================================================== *)
(** ** The interfaces the bridge calls into                               *)
(* ===================================================================== *)

Definition Result_bind {A B} (r : Result A) (k : A -> Result B) : Result B :=
  match r with
  | Ok a => k a
  | Err e => Err e
  end.

Notation "x <-? r ; k" := (Result_bind r (fun x => k))
  (at level 100, r at next level, right associativity, only parsing).

(** [toolCallParams] and [promptGetParams] of [handler.go]: the decoded
    [params] of [tools/call] and [prompts/get].  A Go map may be nil. *)
Record toolCallParams := {
  tc_Name : string;
  tc_Arguments : option (gmap string any);
}.

Record promptGetParams := {
  pg_Name : string;
  pg_Arguments : option (gmap string string);
}.

(** The functions of the Go standard library that the code calls and that
    are not modelled further: each is taken as it is, together with two
    facts their documentation gives.  [json_Valid] is [json.Valid]:
    [json.Unmarshal] checks the whole text for well-formedness before it
    decodes anything.  [json.Marshal] rejects a float64 that is NaN or
    infinite with an [UnsupportedValueError]. *)
Class Runtime := {
  strings_TrimSpace : string -> string;
  utf8_ValidString : string -> bool;
  fmt_v : any -> string;
  fmt_q : string -> string;
  json_Valid : string -> bool;
  json_Unmarshal_JSONRPCRequest : string -> Result JSONRPCRequest;
  json_Unmarshal_toolCallParams : string -> Result toolCallParams;
  json_Unmarshal_promptGetParams : string -> Result promptGetParams;
  json_Marshal : any -> Result string;
  json_Marshal_JSONRPCResponse : JSONRPCResponse -> Result string;
  json_Unmarshal_syntax : forall line,
    json_Valid line = false ->
    exists e, json_Unmarshal_JSONRPCRequest line = Err e;
  json_Marshal_unsupported : forall v,
    has_unsupported_float v = true -> exists e, json_Marshal v = Err e;
}.

(** [Sender] of [transport.go]: one round trip to the orchestrator.  The
    sender is stateful (a connection, or the closure of a test double), so
    [Send] takes and returns its state.  A reply is a message pointer. *)
Class Sender (S : Type) := {
  Send : PluginRequest -> S -> Result (option PluginResponse) * S;
}.

(** [io.Writer]: [Write] reports an error or accepts the bytes. *)
Class Writer (W : Type) := {
  Write : string -> W -> option error * W;
}.

(* ===================================================================== *)
(** ** structpb.NewValue, NewStruct, NewList                              *)
(* ===================================================================== *)

Section NewValue.
Context `{Runtime}.

(** The loop of [NewStruct] over the entries of the map.  Go ranges over a
    map in no fixed order, so with several offending entries the one whose
    error is returned is not determined; [map_fold] fixes one order. *)
Definition NewStruct_fields (conv : any -> Result Value)
    (m : gmap string any) : Result (gmap string Value) :=
  map_fold (fun k v (acc : Result (gmap string Value)) =>
    x <-? acc;
    if utf8_ValidString k then
      y <-? conv v; Ok (<[k:=y]> x)
    else Err ("proto: invalid UTF-8 in string: " +:+ fmt_q k))
  (Ok ∅) m.

Fixpoint NewList_values (conv : any -> Result Value)
    (l : list any) : Result (list Value) :=
  match l with
  | [] => Ok []
  | v :: l =>
      y <-? conv v;
      ys <-? NewList_values conv l;
      Ok (y :: ys)
  end.

(** [structpb.NewValue], on the dynamic types of [any]: every type outside
    its type switch is an error naming the type. *)
Fixpoint NewValue (v : any) : Result Value :=
  match v with
  | ANil => Ok NullValue
  | ABool b => Ok (BoolValue b)
  | AFloat64 f => Ok (NumberValue f)
  | AString s =>
      if utf8_ValidString s then Ok (StringValue s)
      else Err ("proto: invalid UTF-8 in string: " +:+ fmt_q s)
  | AMap m =>
      x <-? match m with
            | None => Ok ∅
            | Some m => NewStruct_fields NewValue m
            end;
      Ok (StructValue (Some x))
  | ASlice l =>
      x <-? NewList_values NewValue l;
      Ok (ListValue (Some x))
  | AOther ty => Err ("proto: invalid type: " +:+ ty)
  end.

(** [structpb.NewStruct]: a fresh, non-nil [Struct], also for the nil map. *)
Definition NewStruct (v : option (gmap string any)) : Result Struct :=
  x <-? match v with
        | None => Ok ∅
        | Some m => NewStruct_fields NewValue m
        end;
  Ok (Some x).

End NewValue.

(* ===================================================================== *)
(** ** internal/translator.go: Protobuf <-> MCP conversions               *)
(* ===================================================================== *)

Section Translator.
Context `{Runtime}.

(** [valueToInterface] converts a protobuf [Value] to a native Go value.
    The case for a struct kind is [StructToMap] of the pointer it holds,
    written here in place so that the recursion is structural; see
    [valueToInterface_StructValue]. *)
Fixpoint valueToInterface (v : Value) : any :=
  match v with
  | NilValue => ANil
  | NullValue => ANil
  | NumberValue f => AFloat64 f
  | StringValue s => AString s
  | BoolValue b => ABool b
  | StructValue s => AMap (fmap (M:=option) (fmap (M:=gmap string) valueToInterface) s)
  | ListValue None => ANil
  | ListValue (Some l) => ASlice (map valueToInterface l)
  | KindUnset => ANil
  end.

(** [StructToMap]: nil for nil, else a fresh map with every field
    converted. *)
Definition StructToMap (s : Struct) : option (gmap string any) :=
  match s with
  | None => None
  | Some fields => Some (valueToInterface <$> fields)
  end.

(** [MapToStruct] is [structpb.NewStruct]. *)
Definition MapToStruct (m : option (gmap string any)) : Result Struct :=
  NewStruct m.

(** [extractResultText]: the [text] field if the struct has one, else the
    JSON of the whole struct, else (JSON encoding failed) its [%v] form. *)
Definition extractResultText (s : Struct) : string :=
  match s with
  | None => EmptyString
  | Some _ =>
      match GetFields s !! "text" with
      | Some v => GetStringValue v
      | None =>
          let m := StructToMap s in
          match json_Marshal (AMap m) with
          | Err _ => fmt_v (AMap m)
          | Ok data => data
          end
      end
  end.

Definition ToolResponseToMCP (resp : option ToolResponse) : MCPToolResult :=
  if negb (GetSuccess resp) then
    let errMsg := GetErrorMessage resp in
    let errMsg :=
      if decide (errMsg = EmptyString)
      then "tool error: " +:+ GetErrorCode resp
      else errMsg in
    {| Content := [ {| Type_ := "text"; Text := errMsg |} ];
       IsError := true |}
  else
    let text := extractResultText (GetResult resp) in
    {| Content := [ {| Type_ := "text"; Text := text |} ];
       IsError := false |}.

Definition ToolDefinitionToMCP (td : option ToolDefinition) : MCPToolDefinition :=
  let inputSchema :=
    match GetInputSchema td with
    | None => ANil
    | Some _ => AMap (StructToMap (GetInputSchema td))
    end in
  {| MCPToolDefinition_Name := ToolDefinition_GetName td;
     MCPToolDefinition_Description := ToolDefinition_GetDescription td;
     MCPToolDefinition_InputSchema := inputSchema |}.

Definition PromptArgumentToMCP (a : option PromptArgument) : MCPPromptArgument :=
  match a with
  | Some a =>
      {| MCPPromptArgument_Name := PromptArgument_Name a;
         MCPPromptArgument_Description := PromptArgument_Description a;
         MCPPromptArgument_Required := PromptArgument_Required a |}
  | None =>
      {| MCPPromptArgument_Name := EmptyString;
         MCPPromptArgument_Description := EmptyString;
         MCPPromptArgument_Required := false |}
  end.

Definition PromptDefinitionToMCP (pd : option PromptDefinition) : MCPPromptDefinition :=
  match pd with
  | Some pd =>
      {| MCPPromptDefinition_Name := PromptDefinition_Name pd;
         MCPPromptDefinition_Description := PromptDefinition_Description pd;
         MCPPromptDefinition_Arguments :=
           map PromptArgumentToMCP (PromptDefinition_Arguments pd) |}
  | None =>
      {| MCPPromptDefinition_Name := EmptyString;
         MCPPromptDefinition_Description := EmptyString;
         MCPPromptDefinition_Arguments := [] |}
  end.

Definition PromptMessageToMCP (m : option PromptMessage) : MCPPromptMessage :=
  {| MCPPromptMessage_Role :=
       match m with Some m => PromptMessage_Role m | None => EmptyString end;
     MCPPromptMessage_Content :=
       match m with
       | Some {| PromptMessage_Content := Some c |} =>
           {| Type_ := ContentBlock_Type c; Text := ContentBlock_Text c |}
       | _ => {| Type_ := EmptyString; Text := EmptyString |}
       end |}.

Definition PromptGetResponseToMCP (resp : option PromptGetResponse) : MCPPromptResult :=
  match resp with
  | Some resp =>
      {| MCPPromptResult_Description := PromptGetResponse_Description resp;
         MCPPromptResult_Messages :=
           map PromptMessageToMCP (PromptGetResponse_Messages resp) |}
  | None =>
      {| MCPPromptResult_Description := EmptyString;
         MCPPromptResult_Messages := [] |}
  end.

End Translator.

(* ===================================================================== *)
(** ** internal/transport.go and internal/handler.go                      *)
(* ===================================================================== *)

(** [maxScannerBuffer] is 10 MB: the longest line the scanner takes. *)
Definition maxScannerBuffer : Z := 10 * 1024 * 1024.

(** A [bufio.Scanner] over the input, by what scanning it will yield: the
    tokens (lines) still to come and the error [Err()] reports once they
    are used up ([None] at a clean end of input; a line longer than
    [maxScannerBuffer] ends the tokens with the scanner's error). *)
Record Scanner := {
  tokens : list string;
  scan_err : option error;
}.

(** What the transport does to the outside, in the order it does it. *)
Inductive Event :=
  | EvSend (req : PluginRequest)
  | EvWrite (data : string) (err : option error)
  | EvLog (msg : string).

(** The lines written: the data of the writes that succeeded. *)
Definition written (tr : list Event) : list string :=
  omap (fun ev => match ev with EvWrite data None => Some data | _ => None end) tr.

(** The requests handed to the sender. *)
Definition sent (tr : list Event) : list PluginRequest :=
  omap (fun ev => match ev with EvSend req => Some req | _ => None end) tr.

(** A [context.Context], by what [ctx.Err()] answers when the loop asks in
    its [i]-th iteration: the signal is raised from outside, at any time. *)
Definition Context := nat -> option error.

Section Transport.
Context `{Runtime} {S W : Type} `{Sender S} `{Writer W}.

(** [StdioTransport]: the struct of [transport.go] (the mutex guards
    [writer] against concurrent writers, of which this sequential program
    has none), and the trace of its effects so far. *)
Record StdioTransport := {
  sender : S;
  reader : Scanner;
  writer : W;
  trace : list Event;
}.

Definition NewStdioTransport (s : S) (input : Scanner) (out : W) : StdioTransport :=
  {| sender := s; reader := input; writer := out; trace := [] |}.

(** Methods run in the state monad over the transport. *)
Definition M (A : Type) := StdioTransport -> A * StdioTransport.

Definition ret {A} (a : A) : M A := fun t => (a, t).
Definition bind {A B} (m : M A) (k : A -> M B) : M B :=
  fun t => let (a, t') := m t in k a t'.

Notation "x <- m ;; k" := (bind m (fun x => k))
  (at level 100, m at next level, right associativity, only parsing).

(** [t.sender.Send(ctx, req)] *)
Definition sender_Send (req : PluginRequest) : M (Result (option PluginResponse)) :=
  fun t =>
    let (r, s') := Send req (sender t) in
    (r, {| sender := s'; reader := reader t; writer := writer t;
           trace := trace t ++ [EvSend req] |}).

(** [t.writer.Write(data)] *)
Definition writer_Write (data : string) : M (option error) :=
  fun t =>
    let (e, w') := Write data (writer t) in
    (e, {| sender := sender t; reader := reader t; writer := w';
           trace := trace t ++ [EvWrite data e] |}).

(** [log.Printf] *)
Definition log_Printf (msg : string) : M unit :=
  fun t =>
    (tt, {| sender := sender t; reader := reader t; writer := writer t;
            trace := trace t ++ [EvLog msg] |}).

Definition error_response (id : any) (code : Z) (msg : string) : JSONRPCResponse :=
  {| JSONRPC := "2.0"; ID := id; Result_ := None;
     Error := Some {| Code := code; Message := msg |} |}.

Definition result_response (id : any) (r : ResultValue) : JSONRPCResponse :=
  {| JSONRPC := "2.0"; ID := id; Result_ := Some r; Error := None |}.

(** *** handler.go

    The handlers, in the version of the file that has the two prompt
    handlers [dispatch] calls. *)

Definition handleInitialize (req : JSONRPCRequest) : JSONRPCResponse :=
  result_response (req_ID req)
    (Result_MCPInitializeResult
       {| ProtocolVersion := "2024-11-05";
          Capabilities := {| Tools := Some tt; Prompts := Some tt |};
          ServerInfo := {| ServerName := "orchestra"; ServerVersion := "1.0.0" |} |}).

Definition handlePing (req : JSONRPCRequest) : JSONRPCResponse :=
  result_response (req_ID req) (Result_any (AMap (Some ∅))).

Definition handleToolsList (req : JSONRPCRequest) : M JSONRPCResponse :=
  r <- sender_Send {| RequestId := "stdio-lt-" +:+ fmt_v (req_ID req);
                      Request := PluginRequest_ListTools |} ;;
  match r with
  | Err err =>
      ret (error_response (req_ID req) InternalError
             ("orchestrator list_tools failed: " +:+ err))
  | Ok resp =>
      match GetListTools resp with
      | None =>
          ret (error_response (req_ID req) InternalError
                 "unexpected response type from orchestrator")
      | Some lt =>
          let mcpTools := map ToolDefinitionToMCP (ListToolsResponse_Tools lt) in
          ret (result_response (req_ID req) (Result_toolsListResult mcpTools))
      end
  end.

(** The zero value of [toolCallParams]. *)
Definition toolCallParams_zero : toolCallParams :=
  {| tc_Name := EmptyString; tc_Arguments := None |}.

(** The first statement of [handleToolsCall]: [params] keeps its zero
    value when the request has no [params], and is decoded otherwise. *)
Definition toolCallParams_of (req : JSONRPCRequest) : Result toolCallParams :=
  match req_Params req with
  | None => Ok toolCallParams_zero
  | Some raw => json_Unmarshal_toolCallParams raw
  end.

(** The conversion of the arguments in [handleToolsCall]: [args] stays the
    nil [Struct] when [params.Arguments] is the nil map, and is
    [structpb.NewStruct] of it otherwise. *)
Definition toolCall_args (params : toolCallParams) : Result Struct :=
  match tc_Arguments params with
  | None => Ok None
  | Some _ => NewStruct (tc_Arguments params)
  end.

Definition handleToolsCall (req : JSONRPCRequest) : M JSONRPCResponse :=
  match toolCallParams_of req with
  | Err err =>
      ret (error_response (req_ID req) InvalidParams ("invalid params: " +:+ err))
  | Ok params =>
      if decide (tc_Name params = EmptyString) then
        ret (error_response (req_ID req) InvalidParams
               "missing required parameter: name")
      else
        match toolCall_args params with
        | Err err =>
            ret (error_response (req_ID req) InvalidParams
                   ("invalid arguments: " +:+ err))
        | Ok args =>
            r <- sender_Send
                   {| RequestId := "stdio-tc-" +:+ fmt_v (req_ID req);
                      Request := PluginRequest_ToolCall
                        {| ToolName := tc_Name params;
                           Arguments := args;
                           CallerPlugin := "transport.stdio" |} |} ;;
            match r with
            | Err err =>
                ret (error_response (req_ID req) InternalError
                       ("orchestrator tool_call failed: " +:+ err))
            | Ok resp =>
                match GetToolCall resp with
                | None =>
                    ret (error_response (req_ID req) InternalError
                           "unexpected response type from orchestrator")
                | Some tc =>
                    let mcpResult := ToolResponseToMCP (Some tc) in
                    ret (result_response (req_ID req) (Result_MCPToolResult mcpResult))
                end
            end
        end
  end.

Definition handlePromptsList (req : JSONRPCRequest) : M JSONRPCResponse :=
  r <- sender_Send {| RequestId := "stdio-lp-" +:+ fmt_v (req_ID req);
                      Request := PluginRequest_ListPrompts |} ;;
  match r with
  | Err err =>
      ret (error_response (req_ID req) InternalError
             ("orchestrator list_prompts failed: " +:+ err))
  | Ok resp =>
      match GetListPrompts resp with
      | None =>
          ret (error_response (req_ID req) InternalError
                 "unexpected response type from orchestrator")
      | Some lp =>
          let mcpPrompts := map PromptDefinitionToMCP (ListPromptsResponse_Prompts lp) in
          ret (result_response (req_ID req) (Result_promptsListResult mcpPrompts))
      end
  end.

Definition promptGetParams_zero : promptGetParams :=
  {| pg_Name := EmptyString; pg_Arguments := None |}.

Definition promptGetParams_of (req : JSONRPCRequest) : Result promptGetParams :=
  match req_Params req with
  | None => Ok promptGetParams_zero
  | Some raw => json_Unmarshal_promptGetParams raw
  end.

Definition handlePromptsGet (req : JSONRPCRequest) : M JSONRPCResponse :=
  match promptGetParams_of req with
  | Err err =>
      ret (error_response (req_ID req) InvalidParams ("invalid params: " +:+ err))
  | Ok params =>
      if decide (pg_Name params = EmptyString) then
        ret (error_response (req_ID req) InvalidParams
               "missing required parameter: name")
      else
        r <- sender_Send
               {| RequestId := "stdio-pg-" +:+ fmt_v (req_ID req);
                  Request := PluginRequest_PromptGet
                    {| PromptName := pg_Name params;
                       PromptArguments := pg_Arguments params |} |} ;;
        match r with
        | Err err =>
            ret (error_response (req_ID req) InternalError
                   ("orchestrator prompt_get failed: " +:+ err))
        | Ok resp =>
            match GetPromptGet resp with
            | None =>
                ret (error_response (req_ID req) InternalError
                       "unexpected response type from orchestrator")
            | Some pg =>
                let mcpResult := PromptGetResponseToMCP (Some pg) in
                ret (result_response (req_ID req) (Result_MCPPromptResult mcpResult))
            end
        end
  end.

(** *** transport.go *)

(** The [case] labels of the switch in [dispatch]. *)
Definition exact_methods : list string :=
  [ "initialize"; "ping"; "tools/list"; "tools/call"; "prompts/list"; "prompts/get" ].

(** [dispatch] routes a request by its method; [None] is the nil response
    of a notification. *)
Definition dispatch (req : JSONRPCRequest) : M (option JSONRPCResponse) :=
  let method := req_Method req in
  if decide (method = "initialize") then ret (Some (handleInitialize req))
  else if decide (method = "ping") then ret (Some (handlePing req))
  else if decide (method = "tools/list") then
    resp <- handleToolsList req ;; ret (Some resp)
  else if decide (method = "tools/call") then
    resp <- handleToolsCall req ;; ret (Some resp)
  else if decide (method = "prompts/list") then
    resp <- handlePromptsList req ;; ret (Some resp)
  else if decide (method = "prompts/get") then
    resp <- handlePromptsGet req ;; ret (Some resp)
  else if String.prefix "notifications/" method then
    _ <- log_Printf ("notification: " +:+ method) ;; ret None
  else
    ret (Some (error_response (req_ID req) MethodNotFound
                 ("method not found: " +:+ method))).

(** The newline that ends a response line. *)
Definition newline : string := String "010"%char EmptyString.

(** [writeResponse] serializes the response as one line and writes it. *)
Definition writeResponse (resp : JSONRPCResponse) : M (option error) :=
  match json_Marshal_JSONRPCResponse resp with
  | Err err => ret (Some ("marshal response: " +:+ err))
  | Ok data => writer_Write (data +:+ newline)
  end.

(** What one pass through the body of the loop of [Run] asks of the loop:
    go on with the next [Scan], or return. *)
Inductive Step :=
  | Continue
  | Return (err : error).

(** The body of the loop of [Run] below the cancellation check, for the
    token the scanner holds. *)
Definition Run_body (text : string) : M Step :=
  let line := strings_TrimSpace text in
  if decide (line = EmptyString) then ret Continue
  else
    match json_Unmarshal_JSONRPCRequest line with
    | Err err =>
        let resp := error_response ANil ParseError ("parse error: " +:+ err) in
        writeErr <- writeResponse resp ;;
        match writeErr with
        | Some writeErr => ret (Return ("write parse error response: " +:+ writeErr))
        | None => ret Continue
        end
    | Ok req =>
        resp <- dispatch req ;;
        match resp with
        | None => ret Continue
        | Some resp =>
            err <- writeResponse resp ;;
            match err with
            | Some err => ret (Return ("write response: " +:+ err))
            | None => ret Continue
            end
        end
    end.

(** [t.reader.Scan()] has advanced to the next token: the scanner now has
    [rest] to come. *)
Definition reader_advance (rest : list string) : M unit :=
  fun t =>
    (tt, {| sender := sender t;
            reader := {| tokens := rest; scan_err := scan_err (reader t) |};
            writer := writer t; trace := trace t |}).

(** The loop of [Run], at its [i]-th [Scan], over the tokens to come. *)
Fixpoint Run_loop (ctx : Context) (i : nat) (toks : list string) : M (option error) :=
  match toks with
  | [] =>
      fun t =>
        (match scan_err (reader t) with
         | Some err => Some ("scanner error: " +:+ err)
         | None => None
         end, t)
  | text :: rest =>
      _ <- reader_advance rest ;;
      match ctx i with
      | Some err => ret (Some err)
      | None =>
          step <- Run_body text ;;
          match step with
          | Return err => ret (Some err)
          | Continue => Run_loop ctx (Datatypes.S i) rest
          end
      end
  end.

(** [Run] reads lines until the input ends or the context is cancelled. *)
Definition Run (ctx : Context) : M (option error) :=
  fun t => Run_loop ctx 0 (tokens (reader t)) t.

End Transport.

(* ===================================================================== *)
(** ** Test doubles                                                       *)
(* ===================================================================== *)

(** The doubles of [internal/transport_test.go], to run the model on
    concrete inputs: [mockSender], a [bytes.Buffer] as the writer, and a
    small [Runtime].  The runtime double decodes request lines by a table
    (the lines of the tests, decoded by hand, and a few more); text that is
    not in the table is rejected as malformed.  Its printers cover the
    values the examples use. *)
Module TestRuntime.

(** JSON text is written here with ['] for the double quote. *)
Definition dq : ascii := "034"%char.

Fixpoint js (s : string) : string :=
  match s with
  | EmptyString => EmptyString
  | String c s => String (if decide (c = "'"%char) then dq else c) (js s)
  end.

Fixpoint join (sep : string) (l : list string) : string :=
  match l with
  | [] => EmptyString
  | [x] => x
  | x :: l => x +:+ sep +:+ join sep l
  end.

(** ASCII white space, for [strings.TrimSpace] on ASCII text. *)
Definition is_space (c : ascii) : bool :=
  let n := nat_of_ascii c in
  bool_decide (n = 32 \/ (9 <= n /\ n <= 13)).

Fixpoint trim_left (s : string) : string :=
  match s with
  | String c s' => if is_space c then trim_left s' else s
  | EmptyString => EmptyString
  end.

Definition TrimSpace (s : string) : string :=
  String.rev (trim_left (String.rev (trim_left s))).

(** [utf8.ValidString], by the table of well-formed byte sequences. *)
Definition in_range (lo hi : nat) (c : ascii) : bool :=
  let n := nat_of_ascii c in bool_decide (lo <= n /\ n <= hi).

Fixpoint ValidString (s : string) : bool :=
  match s with
  | EmptyString => true
  | String c0 s1 =>
      if in_range 0 127 c0 then ValidString s1
      else
        match s1 with
        | EmptyString => false
        | String c1 s2 =>
            if in_range 194 223 c0 then in_range 128 191 c1 && ValidString s2
            else
              match s2 with
              | EmptyString => false
              | String c2 s3 =>
                  if in_range 224 239 c0 then
                    (if in_range 224 224 c0 then in_range 160 191 c1
                     else if in_range 237 237 c0 then in_range 128 159 c1
                     else in_range 128 191 c1)
                    && in_range 128 191 c2 && ValidString s3
                  else
                    match s3 with
                    | EmptyString => false
                    | String c3 s4 =>
                        in_range 240 244 c0
                        && (if in_range 240 240 c0 then in_range 144 191 c1
                            else if in_range 244 244 c0 then in_range 128 143 c1
                            else in_range 128 191 c1)
                        && in_range 128 191 c2 && in_range 128 191 c3
                        && ValidString s4
                    end
              end
        end
  end.

Definition Z_text (z : Z) : string := NilZero.string_of_int (Z.to_int z).

(** The decimal text of a float64.  An integer prints as Go prints it (below
    the magnitude where Go turns to an exponent); other finite values print
    as their integer part, a point and the exact digits of the fraction. *)
Fixpoint frac_digits (k : nat) (r d : Z) : string :=
  match k with
  | O => EmptyString
  | Datatypes.S k =>
      if decide (r = 0)%Z then EmptyString
      else Z_text (10 * r / d) +:+ frac_digits k (10 * r mod d)%Z d
  end.

Definition float_text (f : float) : string :=
  match FloatOps.Prim2SF f with
  | SpecFloat.S754_zero s => if s then "-0" else "0"
  | SpecFloat.S754_infinity s => if s then "-Inf" else "+Inf"
  | SpecFloat.S754_nan => "NaN"
  | SpecFloat.S754_finite s m e =>
      let sign := if s then "-" else EmptyString in
      if decide (0 <= e)%Z then sign +:+ Z_text (Z.pos m * 2 ^ e)
      else
        let d := (2 ^ (- e))%Z in
        let r := (Z.pos m mod d)%Z in
        sign +:+ Z_text (Z.pos m / d) +:+
        (if decide (r = 0)%Z then EmptyString
         else "." +:+ frac_digits (Z.to_nat (- e)) r d)
  end.

Definition quote (s : string) : string := String dq s +:+ String dq EmptyString.

Definition by_key : relation (string * string) := fun a b => String.le a.1 b.1.

Definition sorted_entries (m : gmap string string) : list (string * string) :=
  merge_sort by_key (map_to_list m).

(** Compact JSON of a native value, keys sorted, as [json.Marshal] writes
    it for strings that need no escape. *)
Fixpoint encode (v : any) : string :=
  match v with
  | ANil => "null"
  | ABool b => if b then "true" else "false"
  | AFloat64 f => float_text f
  | AString s => quote s
  | ASlice l => "[" +:+ join "," (map encode l) +:+ "]"
  | AMap None => "null"
  | AMap (Some m) =>
      "{" +:+ join "," (map (fun kv => quote kv.1 +:+ ":" +:+ kv.2)
                         (sorted_entries (encode <$> m))) +:+ "}"
  | AOther ty => "null"
  end.

Definition Marshal (v : any) : Result string :=
  if has_unsupported_float v
  then Err "json: unsupported value: NaN or Inf"
  else Ok (encode v).

(** The [%v] form of a native value. *)
Fixpoint sprint (v : any) : string :=
  match v with
  | ANil => "<nil>"
  | ABool b => if b then "true" else "false"
  | AFloat64 f => float_text f
  | AString s => s
  | ASlice l => "[" +:+ join " " (map sprint l) +:+ "]"
  | AMap None => "map[]"
  | AMap (Some m) =>
      "map[" +:+ join " " (map (fun kv => kv.1 +:+ ":" +:+ kv.2)
                             (sorted_entries (sprint <$> m))) +:+ "]"
  | AOther ty => "<" +:+ ty +:+ ">"
  end.

(** The request lines the double decodes. *)
Definition line_initialize : string :=
  js "{'jsonrpc':'2.0','id':1,'method':'initialize','params':{}}".
Definition line_notification : string :=
  js "{'jsonrpc':'2.0','method':'notifications/initialized'}".
Definition line_ping : string :=
  js "{'jsonrpc':'2.0','id':2,'method':'ping'}".
Definition line_ping_string_id : string :=
  js "{'jsonrpc':'2.0','id':'req-7','method':'ping'}".
Definition line_ping_no_id : string :=
  js "{'jsonrpc':'2.0','method':'ping'}".
Definition line_notification_with_id : string :=
  js "{'jsonrpc':'2.0','id':1,'method':'notifications/initialized'}".
Definition line_unknown : string :=
  js "{'jsonrpc':'2.0','id':10,'method':'unknown/method'}".
Definition line_tools_list : string :=
  js "{'jsonrpc':'2.0','id':7,'method':'tools/list'}".
Definition line_tools_call : string :=
  js "{'jsonrpc':'2.0','id':5,'method':'tools/call','params':{'name':'create_feature','arguments':{}}}".
Definition line_tools_call_missing_name : string :=
  js "{'jsonrpc':'2.0','id':6,'method':'tools/call','params':{'arguments':{}}}".
Definition line_tools_call_no_params : string :=
  js "{'jsonrpc':'2.0','id':8,'method':'tools/call'}".
Definition line_tools_call_bad_params : string :=
  js "{'jsonrpc':'2.0','id':9,'method':'tools/call','params':[1]}".
Definition line_tools_call_raw : string :=
  js "{'jsonrpc':'2.0','id':11,'method':'tools/call','params':{'name':'echo','arguments':{'raw':'#'}}}".

Definition request (id : any) (method : string) (params : option string) : JSONRPCRequest :=
  {| req_JSONRPC := "2.0"; req_ID := id; req_Method := method; req_Params := params |}.

Definition requests : list (string * JSONRPCRequest) :=
  [ (line_initialize, request (AFloat64 1) "initialize" (Some "{}"));
    (line_notification, request ANil "notifications/initialized" None);
    (line_ping, request (AFloat64 2) "ping" None);
    (line_ping_string_id, request (AString "req-7") "ping" None);
    (line_ping_no_id, request ANil "ping" None);
    (line_notification_with_id, request (AFloat64 1) "notifications/initialized" None);
    (line_unknown, request (AFloat64 10) "unknown/method" None);
    (line_tools_list, request (AFloat64 7) "tools/list" None);
    (line_tools_call, request (AFloat64 5) "tools/call"
       (Some (js "{'name':'create_feature','arguments':{}}")));
    (line_tools_call_missing_name, request (AFloat64 6) "tools/call"
       (Some (js "{'arguments':{}}")));
    (line_tools_call_no_params, request (AFloat64 8) "tools/call" None);
    (line_tools_call_bad_params, request (AFloat64 9) "tools/call" (Some "[1]"));
    (line_tools_call_raw, request (AFloat64 11) "tools/call"
       (Some (js "{'name':'echo','arguments':{'raw':'#'}}"))) ].

Fixpoint assoc {A} (k : string) (l : list (string * A)) : option A :=
  match l with
  | [] => None
  | (k', a) :: l => if decide (k = k') then Some a else assoc k l
  end.

Definition Valid (line : string) : bool :=
  match assoc line requests with Some _ => true | None => false end.

Definition Unmarshal_JSONRPCRequest (line : string) : Result JSONRPCRequest :=
  match assoc line requests with
  | Some req => Ok req
  | None => Err "invalid character 'i' looking for beginning of object key string"
  end.

(** A byte that is not UTF-8.  [encoding/json] replaces such bytes while it
    decodes; the entry for [#] below stands for a decoder that keeps them,
    so that the conversion of the arguments has something to reject. *)
Definition not_utf8 : string := String "255"%char EmptyString.

Definition tool_params : list (string * toolCallParams) :=
  [ ("{}", {| tc_Name := EmptyString; tc_Arguments := None |});
    (js "{'arguments':{}}", {| tc_Name := EmptyString; tc_Arguments := Some ∅ |});
    (js "{'name':'create_feature','arguments':{}}",
     {| tc_Name := "create_feature"; tc_Arguments := Some ∅ |});
    (js "{'name':'echo','arguments':{'raw':'#'}}",
     {| tc_Name := "echo";
        tc_Arguments := Some {[ "raw" := AString not_utf8 ]} |}) ].

Definition Unmarshal_toolCallParams (raw : string) : Result toolCallParams :=
  match assoc raw tool_params with
  | Some p => Ok p
  | None => Err "json: cannot unmarshal into Go value of type internal.toolCallParams"
  end.

Definition Unmarshal_promptGetParams (raw : string) : Result promptGetParams :=
  if decide (raw = "{}") then Ok {| pg_Name := EmptyString; pg_Arguments := None |}
  else Err "json: cannot unmarshal into Go value of type internal.promptGetParams".

(** The JSON of a response: member names and the omission of empty members
    as in the examples of [docs/PROTOCOL.md]. *)
Definition member (name value : string) : string := quote name +:+ ":" +:+ value.

Definition object (members : list string) : string := "{" +:+ join "," members +:+ "}".

Definition encode_content (c : MCPContent) : string :=
  object [ member "type" (quote (Type_ c)); member "text" (quote (Text c)) ].

Definition encode_tool (d : MCPToolDefinition) : string :=
  object [ member "name" (quote (MCPToolDefinition_Name d));
           member "description" (quote (MCPToolDefinition_Description d));
           member "inputSchema" (encode (MCPToolDefinition_InputSchema d)) ].

Definition encode_prompt_argument (a : MCPPromptArgument) : string :=
  object [ member "name" (quote (MCPPromptArgument_Name a));
           member "description" (quote (MCPPromptArgument_Description a));
           member "required" (if MCPPromptArgument_Required a then "true" else "false") ].

Definition encode_prompt (d : MCPPromptDefinition) : string :=
  object [ member "name" (quote (MCPPromptDefinition_Name d));
           member "description" (quote (MCPPromptDefinition_Description d));
           member "arguments"
             ("[" +:+ join "," (map encode_prompt_argument
                                  (MCPPromptDefinition_Arguments d)) +:+ "]") ].

Definition encode_prompt_message (m : MCPPromptMessage) : string :=
  object [ member "role" (quote (MCPPromptMessage_Role m));
           member "content" (encode_content (MCPPromptMessage_Content m)) ].

Definition encode_result (r : ResultValue) : string :=
  match r with
  | Result_MCPInitializeResult r =>
      object [ member "protocolVersion" (quote (ProtocolVersion r));
               member "capabilities"
                 (object (match Tools (Capabilities r) with
                          | Some _ => [ member "tools" "{}" ]
                          | None => []
                          end
                          ++ match Prompts (Capabilities r) with
                             | Some _ => [ member "prompts" "{}" ]
                             | None => []
                             end));
               member "serverInfo"
                 (object [ member "name" (quote (ServerName (ServerInfo r)));
                           member "version" (quote (ServerVersion (ServerInfo r))) ]) ]
  | Result_any v => encode v
  | Result_toolsListResult tools =>
      object [ member "tools" ("[" +:+ join "," (map encode_tool tools) +:+ "]") ]
  | Result_MCPToolResult r =>
      object ([ member "content" ("[" +:+ join "," (map encode_content (Content r)) +:+ "]") ]
              ++ (if IsError r then [ member "isError" "true" ] else []))
  | Result_promptsListResult prompts =>
      object [ member "prompts" ("[" +:+ join "," (map encode_prompt prompts) +:+ "]") ]
  | Result_MCPPromptResult r =>
      object [ member "description" (quote (MCPPromptResult_Description r));
               member "messages"
                 ("[" +:+ join "," (map encode_prompt_message
                                      (MCPPromptResult_Messages r)) +:+ "]") ]
  end.

Definition result_unsupported (r : ResultValue) : bool :=
  match r with
  | Result_any v => has_unsupported_float v
  | Result_toolsListResult tools =>
      existsb (fun d => has_unsupported_float (MCPToolDefinition_InputSchema d)) tools
  | _ => false
  end.

Definition Marshal_JSONRPCResponse (resp : JSONRPCResponse) : Result string :=
  if has_unsupported_float (ID resp)
     || match Result_ resp with Some r => result_unsupported r | None => false end
  then Err "json: unsupported value: NaN or Inf"
  else
    Ok (object
          ([ member "jsonrpc" (quote (JSONRPC resp)) ]
           ++ match ID resp with ANil => [] | id => [ member "id" (encode id) ] end
           ++ match Result_ resp with Some r => [ member "result" (encode_result r) ] | None => [] end
           ++ match Error resp with
              | Some e => [ member "error"
                              (object [ member "code" (Z_text (Code e));
                                        member "message" (quote (Message e)) ]) ]
              | None => []
              end)).

#[export] Program Instance runtime : Runtime := {|
  strings_TrimSpace := TrimSpace;
  utf8_ValidString := ValidString;
  fmt_v := sprint;
  fmt_q := quote;
  json_Valid := Valid;
  json_Unmarshal_JSONRPCRequest := Unmarshal_JSONRPCRequest;
  json_Unmarshal_toolCallParams := Unmarshal_toolCallParams;
  json_Unmarshal_promptGetParams := Unmarshal_promptGetParams;
  json_Marshal := Marshal;
  json_Marshal_JSONRPCResponse := Marshal_JSONRPCResponse;
|}.
Next Obligation.
  intros line Hv. unfold Valid in Hv. unfold Unmarshal_JSONRPCRequest.
  destruct (assoc line requests); [done|]. eauto.
Defined.
Next Obligation.
  intros v Hv. unfold Marshal. rewrite Hv. eauto.
Defined.

(** [mockSender] of the tests: a sender made of a function, or of none. *)
Record mockSender := {
  sendFunc : option (PluginRequest -> Result (option PluginResponse));
}.

#[export] Instance mockSender_Sender : Sender mockSender := {|
  Send req m :=
    (match sendFunc m with
     | Some f => f req
     | None => Err "mockSender: no sendFunc configured"
     end, m);
|}.

(** A [bytes.Buffer]: what has been written to it; [Write] never fails. *)
Definition Buffer := string.

#[export] Instance Buffer_Writer : Writer Buffer := {|
  Write data b := (None, b +:+ data);
|}.

(** A transport over the given input lines, as [runSingleRequest] builds
    it, and the context that is never cancelled. *)
Definition transport (m : mockSender) (lines : list string) : StdioTransport :=
  NewStdioTransport m {| tokens := lines; scan_err := None |} (EmptyString : Buffer).

Definition background : Context := fun _ => None.


(** *** Sample inputs *)

(** A result without a [text] field: [TestToolResponseToMCPFallback]. *)
Definition response_fallback : ToolResponse :=
  {| ToolResponse_Success := true;
     ToolResponse_Result :=
       Some {[ "id" := StringValue "abc-123"; "status" := StringValue "created" ]};
     ToolResponse_ErrorCode := EmptyString;
     ToolResponse_ErrorMessage := EmptyString |}.

(** A successful result that holds a NaN and no [text] field. *)
Definition response_nan : ToolResponse :=
  {| ToolResponse_Success := true;
     ToolResponse_Result := Some {[ "x" := NumberValue nan ]};
     ToolResponse_ErrorCode := EmptyString;
     ToolResponse_ErrorMessage := EmptyString |}.

(** A result whose [text] is a number. *)
Definition response_text_number : ToolResponse :=
  {| ToolResponse_Success := true;
     ToolResponse_Result := Some {[ "text" := NumberValue 42 ]};
     ToolResponse_ErrorCode := EmptyString;
     ToolResponse_ErrorMessage := EmptyString |}.

(** The struct of [TestStructToMap], and a native map with a null in it. *)
Definition struct_sample : gmap string Value :=
  {[ "name" := StringValue "test";
     "count" := NumberValue 42;
     "active" := BoolValue true;
     "tags" := ListValue (Some [StringValue "a"; StringValue "b"]);
     "nested" := StructValue (Some {[ "key" := StringValue "val" ]}) ]}.

Definition map_sample : gmap string any :=
  {[ "title" := AString "Add login";
     "parent" := ANil;
     "labels" := ASlice [AString "ui"; ANil; AFloat64 3] ]}.

(** A sender without a function: every [Send] fails. *)
Definition no_backend : mockSender := {| sendFunc := None |}.

(** The sender of [TestToolsCallNetworkError], and one that replies with a
    message that has no payload. *)
Definition refusing : mockSender :=
  {| sendFunc := Some (fun _ => Err "connection refused") |}.

Definition empty_reply : mockSender :=
  {| sendFunc := Some (fun preq =>
       Ok (Some {| ResponseRequestId := RequestId preq;
                   Response := PluginResponse_Unset |})) |}.

Definition request_tools_call : JSONRPCRequest :=
  request (AFloat64 5) "tools/call"
    (Some (js "{'name':'create_feature','arguments':{}}")).



End TestRuntime.

(* ===================================================================== *)
(** ** Vocabulary of the properties                                       *)
(* ===================================================================== *)

Section Vocabulary.
Context `{Runtime}.

(** A structured value that the native model can express and give back:
    no nil pointer and no unset kind in it, and all its strings and keys
    UTF-8. *)
Fixpoint Value_expressible (v : Value) : bool :=
  match v with
  | NilValue | KindUnset => false
  | NullValue | NumberValue _ | BoolValue _ => true
  | StringValue s => utf8_ValidString s
  | StructValue None => false
  | StructValue (Some m) =>
      map_fold (fun k x acc => utf8_ValidString k && Value_expressible x && acc) true m
  | ListValue None => false
  | ListValue (Some l) => forallb Value_expressible l
  end.

Definition Fields_expressible (fields : gmap string Value) : bool :=
  Value_expressible (StructValue (Some fields)).

(** A native value that the structured model can express and give back:
    of the dynamic types JSON decodes to, without a nil map, and all its
    strings and keys UTF-8. *)
Fixpoint any_expressible (v : any) : bool :=
  match v with
  | ANil | ABool _ | AFloat64 _ => true
  | AString s => utf8_ValidString s
  | ASlice l => forallb any_expressible l
  | AMap None => false
  | AMap (Some m) =>
      map_fold (fun k x acc => utf8_ValidString k && any_expressible x && acc) true m
  | AOther _ => false
  end.

Definition map_expressible (m : gmap string any) : bool :=
  any_expressible (AMap (Some m)).

(** The request has no [id]: the member was absent (or null) on the line. *)
Definition is_nil (v : any) : bool :=
  match v with ANil => true | _ => false end.

(** The method is one of the [case] labels of [dispatch]. *)
Definition exact_match (method : string) : bool :=
  bool_decide (method ∈ exact_methods).

(** The request is one [dispatch] answers with the nil response. *)
Definition notification_routed (req : JSONRPCRequest) : bool :=
  negb (exact_match (req_Method req))
  && String.prefix "notifications/" (req_Method req).


(** [out] is the line that [writeResponse] writes for [resp]. *)
Definition rendered (resp : JSONRPCResponse) (out : string) : Prop :=
  exists data,
    json_Marshal_JSONRPCResponse resp = Ok data /\ out = data +:+ newline.


(** The one content block of a tool result. *)
Definition text_result (text : string) (isError : bool) : MCPToolResult :=
  {| Content := [ {| Type_ := "text"; Text := text |} ]; IsError := isError |}.

End Vocabulary.

Section TransportVocabulary.
Context `{Runtime} {S W : Type} `{Sender S} `{Writer W}.

Implicit Types (t : @StdioTransport S W).

(** The transport [t'] is [t] after more effects, none of them a write. *)
Definition silent t t' : Prop :=
  exists tr, trace t' = trace t ++ tr /\ written tr = [].

(** The outcome [r] of a pass of the loop body from [t] is the writing of
    [resp]: the pass goes on and has written the line of [resp] and nothing
    else, or the write itself failed and the pass returns, with nothing
    written. *)
Definition responds_with (resp : JSONRPCResponse) t
    (r : Step * @StdioTransport S W) : Prop :=
  match r.1 with
  | Continue => exists out, rendered resp out /\ trace r.2 = trace t ++ [EvWrite out None]
  | Return _ => written (trace r.2) = written (trace t)
  end.

End TransportVocabulary.

(* ===================================================================== *)
(** ** Vocabulary of the further properties                               *)
(* ===================================================================== *)

Section FurtherVocabulary.
Context `{Runtime}.

(** All the strings and keys of a structured value are UTF-8. *)
Fixpoint Value_utf8 (v : Value) : bool :=
  match v with
  | StringValue s => utf8_ValidString s
  | StructValue (Some m) =>
      map_fold (fun k x acc => utf8_ValidString k && Value_utf8 x && acc) true m
  | ListValue (Some l) => forallb Value_utf8 l
  | _ => true
  end.

(** A structured value with what is absent in it made explicit: a nil
    value, an unset kind and a nil list become the null kind, a nil struct
    becomes the empty struct. *)
Fixpoint normalize (v : Value) : Value :=
  match v with
  | NilValue | KindUnset | NullValue | ListValue None => NullValue
  | NumberValue f => NumberValue f
  | StringValue s => StringValue s
  | BoolValue b => BoolValue b
  | StructValue None => StructValue (Some ∅)
  | StructValue (Some m) => StructValue (Some (normalize <$> m))
  | ListValue (Some l) => ListValue (Some (map normalize l))
  end.


(** The response has a result or an error, and not both. *)
Definition result_xor_error (resp : JSONRPCResponse) : bool :=
  match Result_ resp, Error resp with
  | Some _, None | None, Some _ => true
  | _, _ => false
  end.

(** The token is a blank line: nothing is left of it once trimmed. *)
Definition blank (text : string) : Prop := strings_TrimSpace text = EmptyString.

#[global] Instance blank_dec text : Decision (blank text).
Proof. unfold blank. apply _. Defined.

End FurtherVocabulary.

Section FurtherTransportVocabulary.
Context {S W : Type}.

Implicit Types (t : @StdioTransport S W).

(** The transport with another scanner in the place of its reader. *)
Definition with_reader (r : Scanner) t : @StdioTransport S W :=
  {| sender := sender t; reader := r; writer := writer t; trace := trace t |}.

(** A method that neither reads nor changes the reader. *)
Definition framed {A} (m : @M S W A) : Prop :=
  forall r t, m (with_reader r t) = ((m t).1, with_reader r (m t).2).

(** Two transports that differ at most in the tokens their readers hold. *)
Definition same_io t1 t2 : Prop :=
  sender t1 = sender t2 /\ writer t1 = writer t2 /\ trace t1 = trace t2
  /\ scan_err (reader t1) = scan_err (reader t2).

(** The effects one pass of the loop body can have: none, a log entry, a
    write, a call of the sender, or a call of the sender and then a write. *)
Definition line_shape (tr : list Event) : bool :=
  match tr with
  | [] | [EvLog _] | [EvWrite _ _] | [EvSend _] | [EvSend _; EvWrite _ _] => true
  | _ => false
  end.

(** What every handler does with a request: it returns a well-formed
    response with the [id] of the request, leaves reader and writer alone,
    and either leaves the sender alone too or has called it once. *)
Definition answers (req : JSONRPCRequest) t
    (r : JSONRPCResponse * @StdioTransport S W) : Prop :=
  JSONRPC r.1 = "2.0" /\ ID r.1 = req_ID req /\ result_xor_error r.1 = true
  /\ reader r.2 = reader t /\ writer r.2 = writer t
  /\ ((trace r.2 = trace t /\ sender r.2 = sender t)
      \/ exists preq, trace r.2 = trace t ++ [EvSend preq]).

(** The write of a response failed with [w]: the writer reported [w], or
    the response could not be serialized and nothing reached the writer. *)
Definition write_failed `{Runtime} (w : error) t' : Prop :=
  (exists data, last (trace t') = Some (EvWrite data (Some w)))
  \/ (exists resp m, json_Marshal_JSONRPCResponse resp = Err m
                     /\ w = "marshal response: " +:+ m).

(** The backend request of [tools/call] for the decoded [params]. *)
Definition tool_call_request `{Runtime} (req : JSONRPCRequest)
    (params : toolCallParams) (args : Struct) : PluginRequest :=
  {| RequestId := "stdio-tc-" +:+ fmt_v (req_ID req);
     Request := PluginRequest_ToolCall
       {| ToolName := tc_Name params; Arguments := args;
          CallerPlugin := "transport.stdio" |} |}.

(** The backend request of [prompts/get] for the decoded [params]. *)
Definition prompt_get_request `{Runtime} (req : JSONRPCRequest)
    (params : promptGetParams) : PluginRequest :=
  {| RequestId := "stdio-pg-" +:+ fmt_v (req_ID req);
     Request := PluginRequest_PromptGet
       {| PromptName := pg_Name params;
          PromptArguments := pg_Arguments params |} |}.

(** The backend request a request calls for, if any: it is determined by
    the request alone. *)
Definition request_of `{Runtime} (req : JSONRPCRequest) : option PluginRequest :=
  let method := req_Method req in
  if decide (method = "tools/list") then
    Some {| RequestId := "stdio-lt-" +:+ fmt_v (req_ID req);
            Request := PluginRequest_ListTools |}
  else if decide (method = "tools/call") then
    match toolCallParams_of req with
    | Ok params =>
        if decide (tc_Name params = EmptyString) then None
        else match toolCall_args params with
             | Ok args => Some (tool_call_request req params args)
             | Err _ => None
             end
    | Err _ => None
    end
  else if decide (method = "prompts/list") then
    Some {| RequestId := "stdio-lp-" +:+ fmt_v (req_ID req);
            Request := PluginRequest_ListPrompts |}
  else if decide (method = "prompts/get") then
    match promptGetParams_of req with
    | Ok params =>
        if decide (pg_Name params = EmptyString) then None
        else Some (prompt_get_request req params)
    | Err _ => None
    end
  else None.

(** The backend request a line of the input calls for, if any. *)
Definition backend_request `{Runtime} (text : string) : option PluginRequest :=
  let line := strings_TrimSpace text in
  if decide (line = EmptyString) then None
  else match json_Unmarshal_JSONRPCRequest line with
       | Ok req => request_of req
       | Err _ => None
       end.

End FurtherTransportVocabulary.

(** Further doubles: a writer that fails, senders that reply, and a runtime
    that decodes the [params] of a [prompts/get]. *)
Module MoreDoubles.
Import TestRuntime.

(** A closed pipe: every [Write] fails. *)
Inductive ClosedPipe := closed_pipe.

#[export] Instance ClosedPipe_Writer : Writer ClosedPipe := {|
  Write data w := (Some "write |1: broken pipe", w);
|}.

Definition transport_closed (m : mockSender) (lines : list string)
    : @StdioTransport mockSender ClosedPipe :=
  NewStdioTransport m {| tokens := lines; scan_err := None |} closed_pipe.

(** An input that ends in a scanner error after its lines. *)
Definition transport_too_long (m : mockSender) (lines : list string)
    : @StdioTransport mockSender Buffer :=
  NewStdioTransport m
    {| tokens := lines; scan_err := Some "bufio.Scanner: token too long" |}
    (EmptyString : Buffer).

(** The tools of a backend: one with a schema, one without, and a nil
    entry. *)
Definition tool_create : ToolDefinition :=
  {| ToolDefinition_Name := "create_feature";
     ToolDefinition_Description := "Create a feature";
     ToolDefinition_InputSchema :=
       Some {[ "type" := StringValue "object";
               "properties" := StructValue (Some {[ "title" :=
                  StructValue (Some {[ "type" := StringValue "string" ]}) ]}) ]} |}.

Definition tool_plain : ToolDefinition :=
  {| ToolDefinition_Name := "health";
     ToolDefinition_Description := "Health check";
     ToolDefinition_InputSchema := None |}.

Definition reply (r : PluginResponse_Response) : mockSender :=
  {| sendFunc := Some (fun preq =>
       Ok (Some {| ResponseRequestId := RequestId preq; Response := r |})) |}.

Definition listing : mockSender :=
  reply (PluginResponse_ListTools
           (Some {| ListToolsResponse_Tools :=
                      [Some tool_create; None; Some tool_plain] |})).

(** The backend of [TestToolsCallError]: the tool itself fails. *)
Definition tool_failure : ToolResponse :=
  {| ToolResponse_Success := false;
     ToolResponse_Result := None;
     ToolResponse_ErrorCode := "tool_not_found";
     ToolResponse_ErrorMessage := "tool not found" |}.

Definition failing_tool : mockSender :=
  reply (PluginResponse_ToolCall (Some tool_failure)).

(** A backend with prompts. *)
Definition prompt_review : PromptDefinition :=
  {| PromptDefinition_Name := "review";
     PromptDefinition_Description := "Review a change";
     PromptDefinition_Arguments :=
       [ Some {| PromptArgument_Name := "diff";
                 PromptArgument_Description := "The change";
                 PromptArgument_Required := true |}; None ] |}.

Definition prompt_messages : PromptGetResponse :=
  {| PromptGetResponse_Description := "Review a change";
     PromptGetResponse_Messages :=
       [ Some {| PromptMessage_Role := "user";
                 PromptMessage_Content :=
                   Some {| ContentBlock_Type := "text";
                           ContentBlock_Text := "Please review" |} |};
         Some {| PromptMessage_Role := "assistant"; PromptMessage_Content := None |};
         None ] |}.

Definition prompting : mockSender :=
  {| sendFunc := Some (fun preq =>
       Ok (Some {| ResponseRequestId := RequestId preq;
                   Response :=
                     match Request preq with
                     | PluginRequest_ListPrompts =>
                         PluginResponse_ListPrompts
                           (Some {| ListPromptsResponse_Prompts := [Some prompt_review; None] |})
                     | PluginRequest_PromptGet _ =>
                         PluginResponse_PromptGet (Some prompt_messages)
                     | _ => PluginResponse_Unset
                     end |})) |}.

(** The runtime of the tests, with a decoder for the [params] of
    [prompts/get]. *)
Definition prompt_params : list (string * promptGetParams) :=
  [ ("{}", {| pg_Name := EmptyString; pg_Arguments := None |});
    (js "{'name':'review'}", {| pg_Name := "review"; pg_Arguments := None |});
    (js "{'name':'review','arguments':{'diff':'+1'}}",
     {| pg_Name := "review"; pg_Arguments := Some {[ "diff" := "+1" ]} |}) ].

Definition Unmarshal_promptGetParams' (raw : string) : Result promptGetParams :=
  match assoc raw prompt_params with
  | Some p => Ok p
  | None => Err "json: cannot unmarshal into Go value of type internal.promptGetParams"
  end.

Definition prompt_runtime : Runtime := {|
  strings_TrimSpace := TrimSpace;
  utf8_ValidString := ValidString;
  fmt_v := sprint;
  fmt_q := quote;
  json_Valid := Valid;
  json_Unmarshal_JSONRPCRequest := Unmarshal_JSONRPCRequest;
  json_Unmarshal_toolCallParams := Unmarshal_toolCallParams;
  json_Unmarshal_promptGetParams := Unmarshal_promptGetParams';
  json_Marshal := Marshal;
  json_Marshal_JSONRPCResponse := Marshal_JSONRPCResponse;
  json_Unmarshal_syntax := @json_Unmarshal_syntax runtime;
  json_Marshal_unsupported := @json_Marshal_unsupported runtime;
|}.

Definition request_prompts_get : JSONRPCRequest :=
  request (AFloat64 12) "prompts/get" (Some (js "{'name':'review'}")).

(** A struct with absent parts in it, and a map that cannot be converted. *)
Definition struct_absent : gmap string Value :=
  {[ "a" := NilValue; "b" := KindUnset; "c" := ListValue None;
     "d" := StructValue None;
     "e" := ListValue (Some [NilValue; NumberValue 1]) ]}.


Definition map_with_nil_map : gmap string any :=
  {[ "opts" := AMap None; "parent" := ANil ]}.

End MoreDoubles.

(* ===================================================================== *)
(** ** Basic facts                                                        *)
(* ===================================================================== *)

Lemma string_app_nil_r (s : string) : s +:+ EmptyString = s.
Proof.
  induction s as [|c s IH]; [done|].
  change (String c (s +:+ EmptyString) = String c s). by rewrite IH.
Qed.

Lemma Contains_suffix (p s : string) : Contains (p +:+ s) s.
Proof. exists p, EmptyString. by rewrite string_app_nil_r. Qed.

Lemma Contains_prefix (s p : string) : Contains (s +:+ p) s.
Proof. by exists EmptyString, p. Qed.


Lemma map_fold_sum_lookup {A} (f : A -> nat) (m : gmap string A) k x :
  m !! k = Some x -> f x <= map_fold (fun _ x acc => f x + acc) 0 m.
Proof.
  induction m as [|i y m Hi Hfold IH] using map_first_key_ind.
  - by rewrite lookup_empty.
  - rewrite map_fold_insert_first_key by done.
    rewrite lookup_insert. case_decide; intros ?; simplify_eq; [lia|].
    etrans; [by apply IH|lia].
Qed.

Lemma foldr_sum_elem {A} (f : A -> nat) (l : list A) x :
  x ∈ l -> f x <= foldr (fun x acc => f x + acc) 0 l.
Proof. induction 1; simpl; lia. Qed.

(** Induction on a structured value, with the hypothesis for every field of
    a struct and every element of a list. *)
Lemma Value_ind' (P : Value -> Prop) :
  P NilValue -> P KindUnset -> P NullValue ->
  (forall f, P (NumberValue f)) -> (forall s, P (StringValue s)) ->
  (forall b, P (BoolValue b)) ->
  P (StructValue None) ->
  (forall m, map_Forall (fun _ => P) m -> P (StructValue (Some m))) ->
  P (ListValue None) ->
  (forall l, Forall P l -> P (ListValue (Some l))) ->
  forall v, P v.
Proof.
  intros Hnil Hun Hnull Hnum Hstr Hbool Hsn Hs Hln Hl v.
  remember (Value_size v) as n eqn:Hn. revert v Hn.
  induction n as [n IH] using lt_wf_ind. intros v ->.
  destruct v as [| | | | | |[m|]|[l|]]; auto.
  - apply Hs. intros k x Hk. eapply IH; [|reflexivity].
    simpl. pose proof (map_fold_sum_lookup Value_size m k x Hk). lia.
  - apply Hl. apply Forall_forall. intros x Hx. eapply IH; [|reflexivity].
    simpl. pose proof (foldr_sum_elem Value_size l x Hx). lia.
Qed.

Lemma any_ind' (P : any -> Prop) :
  P ANil -> (forall b, P (ABool b)) -> (forall f, P (AFloat64 f)) ->
  (forall s, P (AString s)) ->
  (forall l, Forall P l -> P (ASlice l)) ->
  P (AMap None) ->
  (forall m, map_Forall (fun _ => P) m -> P (AMap (Some m))) ->
  (forall ty, P (AOther ty)) ->
  forall v, P v.
Proof.
  intros Hnil Hbool Hnum Hstr Hl Hmn Hm Ho v.
  remember (any_size v) as n eqn:Hn. revert v Hn.
  induction n as [n IH] using lt_wf_ind. intros v ->.
  destruct v as [| | | |l|[m|]|]; auto.
  - apply Hl. apply Forall_forall. intros x Hx. eapply IH; [|reflexivity].
    simpl. pose proof (foldr_sum_elem any_size l x Hx). lia.
  - apply Hm. intros k x Hk. eapply IH; [|reflexivity].
    simpl. pose proof (map_fold_sum_lookup any_size m k x Hk). lia.
Qed.

(** A conjunction folded over a map holds when it holds of every entry. *)
Lemma map_fold_andb {A} (p : string -> A -> bool) (m : gmap string A) :
  map_fold (fun k x acc => p k x && acc) true m = true <->
  map_Forall (fun k x => p k x = true) m.
Proof.
  induction m as [|i y m Hi Hfold IH] using map_first_key_ind.
  - split; [intros _; apply map_Forall_empty | done].
  - rewrite map_fold_insert_first_key by done.
    rewrite map_Forall_insert by done.
    rewrite andb_true_iff, IH. done.
Qed.


(* ===================================================================== *)
(** ** The value translator                                               *)
(* ===================================================================== *)

Section TranslatorFacts.
Context `{Runtime}.

Lemma valueToInterface_StructValue s :
  valueToInterface (StructValue s) = AMap (StructToMap s).
Proof. by destruct s. Qed.

Lemma NewValue_AMap m :
  NewValue (AMap m) = (s <-? NewStruct m; Ok (StructValue s)).
Proof.
  unfold NewStruct. simpl.
  by destruct m as [m|]; [destruct (NewStruct_fields _ _)|].
Qed.

(** *** Structured to native and back *)

Lemma NewStruct_fields_fmap (m : gmap string Value) :
  map_Forall (fun k x => utf8_ValidString k = true
                         /\ NewValue (valueToInterface x) = Ok x) m ->
  NewStruct_fields NewValue (valueToInterface <$> m) = Ok m.
Proof.
  unfold NewStruct_fields. rewrite map_fold_fmap.
  induction m as [|i x m Hi Hfirst IH] using map_first_key_ind; [done|].
  intros Hall. apply map_Forall_insert in Hall as [[Hk Hx] Hm]; [|done].
  rewrite map_fold_insert_first_key by done.
  rewrite IH by done. simpl. by rewrite Hk, Hx.
Qed.

Lemma NewList_values_map (l : list Value) :
  Forall (fun x => NewValue (valueToInterface x) = Ok x) l ->
  NewList_values NewValue (map valueToInterface l) = Ok l.
Proof.
  induction 1 as [|x l Hx _ IH]; [done|].
  simpl. by rewrite Hx, IH.
Qed.

Lemma NewValue_valueToInterface (v : Value) :
  Value_expressible v = true -> NewValue (valueToInterface v) = Ok v.
Proof.
  induction v as [| | | | | | |m IH| |l IH] using Value_ind'; try done.
  - simpl. by intros ->.
  - intros Hm. cbn [Value_expressible] in Hm.
    change (NewValue (AMap (Some (valueToInterface <$> m))) = Ok (StructValue (Some m))).
    cbn [NewValue]. rewrite NewStruct_fields_fmap; [done|].
    assert (map_Forall (fun k x => utf8_ValidString k && Value_expressible x = true) m)
      as Hall.
    { by apply (map_fold_andb (fun k x => utf8_ValidString k && Value_expressible x)). }
    intros k x Hk. specialize (Hall k x Hk). apply andb_true_iff in Hall as [??].
    split; [done|]. by eapply IH.
  - intros Hl. cbn [Value_expressible] in Hl.
    cbn [valueToInterface NewValue]. rewrite NewList_values_map; [done|].
    rewrite forallb_forall in Hl. rewrite Forall_forall in IH.
    apply Forall_forall. intros x Hx. apply IH; [done|].
    apply Hl. by apply list_elem_of_In.
Qed.

(** *** Native to structured and back *)

Lemma NewStruct_fields_inv (m : gmap string any) :
  map_Forall (fun k v => utf8_ValidString k = true
     /\ exists x, NewValue v = Ok x /\ valueToInterface x = v) m ->
  exists fields,
    NewStruct_fields NewValue m = Ok fields /\ valueToInterface <$> fields = m.
Proof.
  unfold NewStruct_fields.
  induction m as [|i v m Hi Hfirst IH] using map_first_key_ind.
  - intros _. exists ∅. by rewrite fmap_empty.
  - intros Hall. apply map_Forall_insert in Hall as [[Hk (x & Hx & Hv)] Hm]; [|done].
    destruct (IH Hm) as (fields & Hfold & Hfields).
    exists (<[i:=x]> fields).
    rewrite map_fold_insert_first_key by done.
    rewrite Hfold. simpl. rewrite Hk, Hx. simpl.
    by rewrite fmap_insert, Hv, Hfields.
Qed.

Lemma NewList_values_inv (l : list any) :
  Forall (fun v => exists x, NewValue v = Ok x /\ valueToInterface x = v) l ->
  exists xs, NewList_values NewValue l = Ok xs /\ map valueToInterface xs = l.
Proof.
  induction 1 as [|v l (x & Hx & Hv) _ (xs & Hxs & Hl)].
  - by exists [].
  - exists (x :: xs). simpl. rewrite Hx, Hxs. simpl. by rewrite Hv, Hl.
Qed.

Lemma valueToInterface_NewValue (v : any) :
  any_expressible v = true ->
  exists x, NewValue v = Ok x /\ valueToInterface x = v.
Proof.
  induction v as [|b|f|s|l IH| |m IH|ty] using any_ind'; try done.
  - by exists NullValue.
  - by exists (BoolValue b).
  - by exists (NumberValue f).
  - simpl. intros ->. by exists (StringValue s).
  - intros Hl. cbn [any_expressible] in Hl.
    destruct (NewList_values_inv l) as (xs & Hxs & Hmap).
    { rewrite forallb_forall in Hl. rewrite Forall_forall in IH.
      apply Forall_forall. intros x Hx. apply IH; [done|].
      apply Hl. by apply list_elem_of_In. }
    exists (ListValue (Some xs)). cbn [NewValue]. rewrite Hxs. simpl.
    by rewrite Hmap.
  - intros Hm. cbn [any_expressible] in Hm.
    apply (map_fold_andb (fun k x => utf8_ValidString k && any_expressible x)) in Hm.
    destruct (NewStruct_fields_inv m) as (fields & Hfields & Hmap).
    { intros k x Hk. specialize (Hm k x Hk). apply andb_true_iff in Hm as [??].
      split; [done|]. by eapply IH. }
    exists (StructValue (Some fields)). cbn [NewValue]. rewrite Hfields. simpl.
    by rewrite Hmap.
Qed.

(** *** The round trips of [StructToMap] and [MapToStruct] *)

Lemma MapToStruct_StructToMap (fields : gmap string Value) :
  Fields_expressible fields = true ->
  MapToStruct (StructToMap (Some fields)) = Ok (Some fields).
Proof.
  intros Hf. apply NewValue_valueToInterface in Hf.
  change (valueToInterface (StructValue (Some fields)))
    with (AMap (StructToMap (Some fields))) in Hf.
  rewrite NewValue_AMap in Hf. unfold MapToStruct.
  destruct (NewStruct _) as [s|e]; simpl in Hf; by simplify_eq.
Qed.

Lemma StructToMap_MapToStruct (m : gmap string any) :
  map_expressible m = true ->
  exists fields,
    MapToStruct (Some m) = Ok (Some fields) /\ StructToMap (Some fields) = Some m.
Proof.
  intros Hm. apply valueToInterface_NewValue in Hm as (x & Hx & Hv).
  rewrite NewValue_AMap in Hx. unfold MapToStruct.
  destruct (NewStruct (Some m)) as [s|e] eqn:Hs; simpl in Hx; simplify_eq.
  rewrite valueToInterface_StructValue in Hv.
  destruct s as [fields|]; simplify_eq/=. by exists fields.
Qed.

(** *** [extractResultText] and [ToolResponseToMCP] *)

Lemma extractResultText_text (fields : gmap string Value) (v : Value) :
  fields !! "text" = Some v ->
  extractResultText (Some fields) = GetStringValue v.
Proof. intros Hv. unfold extractResultText. simpl. by rewrite Hv. Qed.

Lemma extractResultText_fallback (fields : gmap string Value) :
  fields !! "text" = None ->
  extractResultText (Some fields) =
    match json_Marshal (AMap (StructToMap (Some fields))) with
    | Ok data => data
    | Err _ => fmt_v (AMap (StructToMap (Some fields)))
    end.
Proof.
  intros Hv. unfold extractResultText. simpl. rewrite Hv.
  by destruct (json_Marshal _).
Qed.

(** A number that JSON cannot write, anywhere in a result without [text],
    takes [extractResultText] to its last resort, the [%v] form. *)
Lemma extractResultText_unsupported (fields : gmap string Value) :
  fields !! "text" = None ->
  has_unsupported_float (AMap (StructToMap (Some fields))) = true ->
  extractResultText (Some fields) = fmt_v (AMap (StructToMap (Some fields))).
Proof.
  intros Hv Hnan. rewrite extractResultText_fallback by done.
  by destruct (json_Marshal_unsupported _ Hnan) as [e ->].
Qed.

End TranslatorFacts.

(* ===================================================================== *)
(** ** The handlers, the dispatcher and the loop                          *)
(* ===================================================================== *)

Lemma written_app (tr1 tr2 : list Event) :
  written (tr1 ++ tr2) = written tr1 ++ written tr2.
Proof. apply omap_app. Qed.

Lemma sent_app (tr1 tr2 : list Event) :
  sent (tr1 ++ tr2) = sent tr1 ++ sent tr2.
Proof. apply omap_app. Qed.

(** No [case] label of [dispatch] has the notification prefix. *)
Lemma prefix_not_exact (method : string) :
  String.prefix "notifications/" method = true -> exact_match method = false.
Proof.
  intros Hp. unfold exact_match, exact_methods. case_bool_decide as Hm; [|done].
  repeat (apply elem_of_cons in Hm as [->|Hm]; [by vm_compute in Hp|]).
  by apply elem_of_nil in Hm.
Qed.

Lemma exact_match_false (method : string) :
  exact_match method = false ->
  method <> "initialize" /\ method <> "ping" /\ method <> "tools/list"
  /\ method <> "tools/call" /\ method <> "prompts/list" /\ method <> "prompts/get".
Proof.
  unfold exact_match, exact_methods. intros Hm.
  apply bool_decide_eq_false in Hm. set_solver.
Qed.

Section TransportFacts.
Context `{Runtime} {S W : Type} `{Sender S} `{Writer W}.

Implicit Types (t : @StdioTransport S W) (req : JSONRPCRequest).

Lemma silent_refl t : silent t t.
Proof. exists []. by rewrite app_nil_r. Qed.

Lemma silent_written t t' : silent t t' -> written (trace t') = written (trace t).
Proof. intros (tr & -> & Htr). by rewrite written_app, Htr, app_nil_r. Qed.

Lemma sender_Send_silent preq t :
  silent t (sender_Send preq t).2.
Proof.
  unfold sender_Send. destruct (Send preq (sender t)) as [r s'].
  by exists [EvSend preq].
Qed.

(** The step of a handler at its call of the sender: name the reply and the
    transport after it, and keep that nothing was written. *)
Local Ltac at_Send t :=
  unfold bind;
  match goal with
  | |- context [sender_Send ?preq t] =>
      let Hs := fresh "Hs" in
      pose proof (sender_Send_silent preq t) as Hs;
      destruct (sender_Send preq t) as [[?|?] ?]; simpl in Hs
  end.

Local Ltac early_return := split; [done|apply silent_refl].

(** Every handler answers with the [id] of the request and writes nothing
    itself. *)
Lemma handleToolsList_ID req t :
  ID (handleToolsList req t).1 = req_ID req /\ silent t (handleToolsList req t).2.
Proof.
  unfold handleToolsList. at_Send t; [|done].
  by destruct (GetListTools _).
Qed.

Lemma handlePromptsList_ID req t :
  ID (handlePromptsList req t).1 = req_ID req /\ silent t (handlePromptsList req t).2.
Proof.
  unfold handlePromptsList. at_Send t; [|done].
  by destruct (GetListPrompts _).
Qed.

Lemma handleToolsCall_ID req t :
  ID (handleToolsCall req t).1 = req_ID req /\ silent t (handleToolsCall req t).2.
Proof.
  unfold handleToolsCall.
  destruct (toolCallParams_of req) as [params|err]; [|early_return].
  destruct (decide _); [early_return|].
  destruct (toolCall_args params) as [args|err]; [|early_return].
  at_Send t; [|done].
  by destruct (GetToolCall _).
Qed.

Lemma handlePromptsGet_ID req t :
  ID (handlePromptsGet req t).1 = req_ID req /\ silent t (handlePromptsGet req t).2.
Proof.
  unfold handlePromptsGet.
  destruct (promptGetParams_of req) as [params|err]; [|early_return].
  destruct (decide _); [early_return|].
  at_Send t; [|done].
  by destruct (GetPromptGet _).
Qed.

(** *** [dispatch] *)

Lemma dispatch_notification req t :
  notification_routed req = true ->
  dispatch req t =
    (None, {| sender := sender t; reader := reader t; writer := writer t;
              trace := trace t ++ [EvLog ("notification: " +:+ req_Method req)] |}).
Proof.
  unfold notification_routed. intros [Hex Hp]%andb_true_iff.
  apply negb_true_iff, exact_match_false in Hex as (?&?&?&?&?&?).
  unfold dispatch. repeat (destruct (decide _); [done|]). by rewrite Hp.
Qed.


(** Every request that is not routed as a notification gets a response,
    and the response carries the [id] of the request. *)
Lemma dispatch_answered req t :
  notification_routed req = false ->
  exists resp t',
    dispatch req t = (Some resp, t') /\ ID resp = req_ID req /\ silent t t'.
Proof.
  intros Hn. unfold dispatch.
  destruct (decide _); [by eexists _, _; split_and!; [done..|apply silent_refl]|].
  destruct (decide _); [by eexists _, _; split_and!; [done..|apply silent_refl]|].
  destruct (decide _).
  { unfold bind. destruct (handleToolsList_ID req t) as [??].
    destruct (handleToolsList req t); by eexists _, _. }
  destruct (decide _).
  { unfold bind. destruct (handleToolsCall_ID req t) as [??].
    destruct (handleToolsCall req t); by eexists _, _. }
  destruct (decide _).
  { unfold bind. destruct (handlePromptsList_ID req t) as [??].
    destruct (handlePromptsList req t); by eexists _, _. }
  destruct (decide _).
  { unfold bind. destruct (handlePromptsGet_ID req t) as [??].
    destruct (handlePromptsGet req t); by eexists _, _. }
  assert (exact_match (req_Method req) = false) as Hex.
  { unfold exact_match, exact_methods. apply bool_decide_eq_false. intros Hm.
    repeat (apply elem_of_cons in Hm as [?|Hm]; [done|]).
    by apply elem_of_nil in Hm. }
  unfold notification_routed in Hn. rewrite Hex in Hn. simpl in Hn. rewrite Hn.
  eexists _, _; split_and!; [done..|apply silent_refl].
Qed.

(** *** [writeResponse] *)

Lemma writeResponse_ok resp t t' :
  writeResponse resp t = (None, t') ->
  exists out, rendered resp out /\ trace t' = trace t ++ [EvWrite out None].
Proof.
  unfold writeResponse, rendered.
  destruct (json_Marshal_JSONRPCResponse resp) as [data|err]; [|done].
  unfold writer_Write. destruct (Write _ _) as [e w']. intros [= -> <-].
  eexists; split; [by eexists|done].
Qed.

Lemma writeResponse_fail resp t e t' :
  writeResponse resp t = (Some e, t') -> silent t t'.
Proof.
  unfold writeResponse.
  destruct (json_Marshal_JSONRPCResponse resp) as [data|err].
  - unfold writer_Write. destruct (Write _ _) as [e' w']. intros [= -> <-].
    by eexists [EvWrite _ (Some _)].
  - intros [= <- <-]. apply silent_refl.
Qed.

(** *** The body of the loop *)


(** *** The loop *)

Lemma Run_loop_cons ctx i text rest t :
  Run_loop ctx i (text :: rest) t =
    let t0 := {| sender := sender t;
                 reader := {| tokens := rest; scan_err := scan_err (reader t) |};
                 writer := writer t; trace := trace t |} in
    match ctx i with
    | Some err => (Some err, t0)
    | None =>
        match Run_body text t0 with
        | (Return err, t1) => (Some err, t1)
        | (Continue, t1) => Run_loop ctx (Datatypes.S i) rest t1
        end
    end.
Proof.
  simpl. unfold bind, reader_advance, ret. destruct (ctx i); [done|].
  by destruct (Run_body _ _) as [[|err] t1].
Qed.

Lemma writeResponse_responds resp wrap t :
  responds_with resp t
    (let (e, t') := writeResponse resp t in
     (match e with Some e => Return (wrap +:+ e) | None => Continue end, t')).
Proof.
  destruct (writeResponse resp t) as [[e|] t'] eqn:Hw; unfold responds_with; simpl.
  - by apply silent_written, (writeResponse_fail resp t e).
  - by apply writeResponse_ok.
Qed.



Lemma Run_body_notification text req t :
  strings_TrimSpace text <> EmptyString ->
  json_Unmarshal_JSONRPCRequest (strings_TrimSpace text) = Ok req ->
  notification_routed req = true ->
  (Run_body text t).1 = Continue
  /\ written (trace (Run_body text t).2) = written (trace t)
  /\ sent (trace (Run_body text t).2) = sent (trace t).
Proof.
  intros Hline Hreq Hn. unfold Run_body. destruct (decide _); [done|].
  rewrite Hreq. unfold bind. rewrite dispatch_notification by done.
  unfold ret. cbn [fst snd trace]. by rewrite written_app, sent_app, !app_nil_r.
Qed.

(** [ping] is answered whatever the [id] of the request, also without one:
    [dispatch] looks at the method only. *)
Lemma Run_body_ping text req t :
  strings_TrimSpace text <> EmptyString ->
  json_Unmarshal_JSONRPCRequest (strings_TrimSpace text) = Ok req ->
  req_Method req = "ping" ->
  responds_with (handlePing req) t (Run_body text t).
Proof.
  intros Hline Hreq Hping. unfold Run_body. destruct (decide _); [done|].
  rewrite Hreq. unfold bind, dispatch. rewrite Hping.
  destruct (decide _); [done|]. destruct (decide _); [|done].
  unfold ret.
  pose proof (writeResponse_responds (handlePing req) "write response: " t) as Hw.
  by destruct (writeResponse _ t) as [[werr|] t'].
Qed.

End TransportFacts.

(* ===================================================================== *)
(** ** The properties of the specification                                *)
(* ===================================================================== *)

Import TestRuntime.

(** *** The tool result *)

(** C3, as the code has it.  A [ToolResponse] is rendered as exactly one
    content block of type [text].  When [success] is false, [isError] is
    true and the text is [errorMessage] if that is not empty, and
    [tool error: ] followed by [errorCode] otherwise.  When [success] is
    true, [isError] is false; if the result struct has a [text] field that
    holds a string, the text is that string; if the result struct has no
    [text] field, the text is the compact JSON of the whole result as
    [json.Marshal] gives it, and when [json.Marshal] rejects the result
    (a NaN or an infinity in it) the text is the [%v] form of the result. *)
Theorem ToolResponseToMCP_rendering `{Runtime} (resp : ToolResponse) :
  (exists text,
     ToolResponseToMCP (Some resp)
     = text_result text (negb (ToolResponse_Success resp)))
  /\ (ToolResponse_Success resp = false ->
      ToolResponse_ErrorMessage resp <> EmptyString ->
      ToolResponseToMCP (Some resp)
      = text_result (ToolResponse_ErrorMessage resp) true)
  /\ (ToolResponse_Success resp = false ->
      ToolResponse_ErrorMessage resp = EmptyString ->
      ToolResponseToMCP (Some resp)
      = text_result ("tool error: " +:+ ToolResponse_ErrorCode resp) true
      /\ Contains ("tool error: " +:+ ToolResponse_ErrorCode resp)
           (ToolResponse_ErrorCode resp))
  /\ (forall fields s,
      ToolResponse_Success resp = true ->
      ToolResponse_Result resp = Some fields ->
      fields !! "text" = Some (StringValue s) ->
      ToolResponseToMCP (Some resp) = text_result s false)
  /\ (forall fields data,
      ToolResponse_Success resp = true ->
      ToolResponse_Result resp = Some fields ->
      fields !! "text" = None ->
      json_Marshal (AMap (StructToMap (Some fields))) = Ok data ->
      ToolResponseToMCP (Some resp) = text_result data false)
  /\ (forall fields err,
      ToolResponse_Success resp = true ->
      ToolResponse_Result resp = Some fields ->
      fields !! "text" = None ->
      json_Marshal (AMap (StructToMap (Some fields))) = Err err ->
      ToolResponseToMCP (Some resp)
      = text_result (fmt_v (AMap (StructToMap (Some fields)))) false).
Proof.
  unfold ToolResponseToMCP, text_result. cbn [GetSuccess GetErrorMessage GetErrorCode GetResult].
  split_and!.
  - destruct (ToolResponse_Success resp); simpl; eauto.
  - intros -> Hmsg. simpl. by destruct (decide _).
  - intros -> Hmsg. simpl. destruct (decide _); [|done].
    split; [done|]. apply Contains_suffix.
  - intros fields s -> -> Htext. cbn [negb].
    by rewrite (extractResultText_text fields _ Htext).
  - intros fields data -> -> Htext Hdata. cbn [negb].
    by rewrite (extractResultText_fallback fields Htext), Hdata.
  - intros fields err -> -> Htext Herr. cbn [negb].
    by rewrite (extractResultText_fallback fields Htext), Herr.
Qed.

Lemma ToolResponseToMCP_rendering_witness :
  ToolResponseToMCP (Some response_fallback)
  = text_result (js "{'id':'abc-123','status':'created'}") false.
Proof.
  refine (proj1 (proj2 (proj2 (proj2 (proj2
    (ToolResponseToMCP_rendering response_fallback)))))
    {[ "id" := StringValue "abc-123"; "status" := StringValue "created" ]}
    _ _ _ _ _); vm_compute; reflexivity.
Defined.

(** C3, as stated, fails: for a successful response whose result has no
    [text] field but holds a NaN, the text is not the JSON of the result
    (there is none: [json.Marshal] fails) but its [%v] form. *)
Lemma ToolResponseToMCP_text_not_JSON :
  ToolResponse_Success response_nan = true
  /\ GetFields (ToolResponse_Result response_nan) !! "text" = None
  /\ ToolResponseToMCP (Some response_nan) = text_result "map[x:NaN]" false
  /\ ~ exists data,
       json_Marshal (AMap (StructToMap (ToolResponse_Result response_nan))) = Ok data
       /\ ToolResponseToMCP (Some response_nan) = text_result data false.
Proof.
  split_and!; [done..|]. by intros (data & Hdata & _).
Qed.

(** C10. A successful response whose result has a [text] field that does
    not hold a string (a number, a bool, a struct, a list, null, or no
    kind at all) is rendered with the empty string as its text, and so is
    a successful response without a result struct; neither is an error. *)
Theorem ToolResponseToMCP_text_empty `{Runtime} (resp : ToolResponse) :
  ToolResponse_Success resp = true ->
  (ToolResponse_Result resp = None
   \/ exists fields v,
        ToolResponse_Result resp = Some fields
        /\ fields !! "text" = Some v
        /\ forall s, v <> StringValue s) ->
  ToolResponseToMCP (Some resp) = text_result EmptyString false.
Proof.
  intros Hs Hr. unfold ToolResponseToMCP, text_result.
  cbn [GetSuccess GetResult]. rewrite Hs. cbn [negb].
  destruct Hr as [->|(fields & v & -> & Htext & Hv)]; [done|].
  rewrite (extractResultText_text fields v Htext).
  destruct v; try done. by destruct (Hv s).
Qed.

Lemma ToolResponseToMCP_text_empty_witness :
  ToolResponseToMCP (Some response_text_number) = text_result EmptyString false.
Proof.
  apply (ToolResponseToMCP_text_empty response_text_number); [reflexivity|].
  right. exists {[ "text" := NumberValue 42 ]}, (NumberValue 42).
  split_and!; [reflexivity|reflexivity|discriminate].
Defined.

(** *** The value translator *)

(** C6. Both round trips of the value translator are the identity on the
    values that both models express: a struct, taken to a native map by
    [StructToMap] and back by [MapToStruct], is the struct again; a native
    map, taken to a struct and back, is the map again, a null inside it
    being kept as the null kind on the way.  Null and absent are not the
    same on the two sides, and the code keeps it so.  At the optional
    position itself, a null (nil map) for the optional arguments of
    [tools/call] is not converted at all: the struct stays absent, and an
    absent struct goes back to null; [MapToStruct], were it applied to the
    nil map, would make an empty struct, which goes back to an empty map.
    Inside a value, what is absent on the structured side (a nil pointer,
    an unset kind, a nil list) becomes a native null, and a native null
    becomes the null kind. *)
Theorem StructToMap_MapToStruct_round_trip `{Runtime} :
  (forall fields : gmap string Value,
     Fields_expressible fields = true ->
     MapToStruct (StructToMap (Some fields)) = Ok (Some fields))
  /\ (forall m : gmap string any,
        map_expressible m = true ->
        exists fields,
          MapToStruct (Some m) = Ok (Some fields)
          /\ StructToMap (Some fields) = Some m)
  /\ (forall params,
        tc_Arguments params = None ->
        toolCall_args params = Ok None /\ StructToMap None = None)
  /\ (MapToStruct None = Ok (Some ∅) /\ StructToMap (Some ∅) = Some ∅)
  /\ (valueToInterface NilValue = ANil
      /\ valueToInterface KindUnset = ANil
      /\ valueToInterface (ListValue None) = ANil
      /\ NewValue ANil = Ok NullValue
      /\ valueToInterface NullValue = ANil).
Proof.
  split_and!; [| | |done..].
  - apply MapToStruct_StructToMap.
  - apply StructToMap_MapToStruct.
  - intros params Hnil. unfold toolCall_args. by rewrite Hnil.
Qed.

Lemma StructToMap_MapToStruct_round_trip_witness :
  MapToStruct (StructToMap (Some struct_sample)) = Ok (Some struct_sample)
  /\ (exists fields,
        MapToStruct (Some map_sample) = Ok (Some fields)
        /\ StructToMap (Some fields) = Some map_sample)
  /\ toolCall_args {| tc_Name := "echo"; tc_Arguments := None |} = Ok None.
Proof.
  destruct StructToMap_MapToStruct_round_trip as (Hs & Hm & Hnil & _).
  split_and!.
  - apply Hs. vm_compute. reflexivity.
  - apply Hm. vm_compute. reflexivity.
  - apply Hnil. reflexivity.
Defined.

(** *** [tools/call] and [tools/list]: what goes wrong before and at the backend *)



(** C5. When [Send] fails, [tools/list] and [tools/call] are answered with
    an InternalError whose message ends in the text of the failure; when
    [Send] succeeds with a reply that is not of the kind asked for (or is
    nil, or holds a nil message), they are answered with the InternalError
    [unexpected response type from orchestrator]. *)
Theorem backend_failure_InternalError `{Runtime} {S W : Type} `{Sender S} `{Writer W}
    (req : JSONRPCRequest) (t : @StdioTransport S W) :
  let list_tools :=
    {| RequestId := "stdio-lt-" +:+ fmt_v (req_ID req);
       Request := PluginRequest_ListTools |} in
  let tool_call params args :=
    {| RequestId := "stdio-tc-" +:+ fmt_v (req_ID req);
       Request := PluginRequest_ToolCall
         {| ToolName := tc_Name params; Arguments := args;
            CallerPlugin := "transport.stdio" |} |} in
  (forall err s',
     Send list_tools (sender t) = (Err err, s') ->
     (handleToolsList req t).1
     = error_response (req_ID req) InternalError
         ("orchestrator list_tools failed: " +:+ err)
     /\ Contains ("orchestrator list_tools failed: " +:+ err) err)
  /\ (forall resp s',
      Send list_tools (sender t) = (Ok resp, s') ->
      GetListTools resp = None ->
      (handleToolsList req t).1
      = error_response (req_ID req) InternalError
          "unexpected response type from orchestrator")
  /\ (forall params args err s',
      toolCallParams_of req = Ok params ->
      tc_Name params <> EmptyString ->
      toolCall_args params = Ok args ->
      Send (tool_call params args) (sender t) = (Err err, s') ->
      (handleToolsCall req t).1
      = error_response (req_ID req) InternalError
          ("orchestrator tool_call failed: " +:+ err)
      /\ Contains ("orchestrator tool_call failed: " +:+ err) err)
  /\ (forall params args resp s',
      toolCallParams_of req = Ok params ->
      tc_Name params <> EmptyString ->
      toolCall_args params = Ok args ->
      Send (tool_call params args) (sender t) = (Ok resp, s') ->
      GetToolCall resp = None ->
      (handleToolsCall req t).1
      = error_response (req_ID req) InternalError
          "unexpected response type from orchestrator")
  /\ Contains "unexpected response type from orchestrator" "unexpected response type".
Proof.
  intros list_tools tool_call. split_and!.
  - intros err s' Hsend. split; [|apply Contains_suffix].
    unfold handleToolsList, bind, sender_Send. fold list_tools. by rewrite Hsend.
  - intros resp s' Hsend Hshape.
    unfold handleToolsList, bind, sender_Send. fold list_tools.
    rewrite Hsend. by rewrite Hshape.
  - intros params args err s' Hp Hname Hargs Hsend. split; [|apply Contains_suffix].
    unfold handleToolsCall. rewrite Hp. destruct (decide _); [done|].
    rewrite Hargs. unfold bind, sender_Send. fold (tool_call params args).
    by rewrite Hsend.
  - intros params args resp s' Hp Hname Hargs Hsend Hshape.
    unfold handleToolsCall. rewrite Hp. destruct (decide _); [done|].
    rewrite Hargs. unfold bind, sender_Send. fold (tool_call params args).
    rewrite Hsend. by rewrite Hshape.
  - exact (Contains_prefix "unexpected response type" " from orchestrator").
Qed.

Lemma backend_failure_InternalError_witness :
  (handleToolsCall request_tools_call (transport refusing [])).1
  = error_response (AFloat64 5) InternalError
      "orchestrator tool_call failed: connection refused"
  /\ (handleToolsList (request (AFloat64 7) "tools/list" None)
        (transport empty_reply [])).1
     = error_response (AFloat64 7) InternalError
         "unexpected response type from orchestrator".
Proof.
  split.
  - destruct (backend_failure_InternalError request_tools_call
      (transport refusing [])) as (_ & _ & Hfail & _).
    refine (proj1 (Hfail
      {| tc_Name := "create_feature"; tc_Arguments := Some ∅ |} (Some ∅)
      "connection refused" refusing _ _ _ _));
      [reflexivity|discriminate|reflexivity|reflexivity].
  - destruct (backend_failure_InternalError (request (AFloat64 7) "tools/list" None)
      (transport empty_reply [])) as (_ & Hshape & _).
    refine (Hshape _ empty_reply _ _); reflexivity.
Defined.

(** *** The dispatcher and the loop *)

(** C8. A request whose method starts with [notifications/] and is not one
    of the exact-match entries is routed to the nil response by [dispatch],
    whatever its [id] and [params]: nothing is sent and nothing written,
    and the pass of the loop over a line that decodes to it goes on with
    no output.  The exact-match entries come first: a request to one of
    them is always answered. *)
Theorem dispatch_notification_prefix `{Runtime} {S W : Type} `{Sender S} `{Writer W}
    (req : JSONRPCRequest) (t : @StdioTransport S W) :
  String.prefix "notifications/" (req_Method req) = true ->
  exact_match (req_Method req) = false ->
  (dispatch req t).1 = None
  /\ written (trace (dispatch req t).2) = written (trace t)
  /\ sent (trace (dispatch req t).2) = sent (trace t)
  /\ (forall text,
        strings_TrimSpace text <> EmptyString ->
        json_Unmarshal_JSONRPCRequest (strings_TrimSpace text) = Ok req ->
        (Run_body text t).1 = Continue
        /\ written (trace (Run_body text t).2) = written (trace t))
  /\ (forall req' : JSONRPCRequest,
        exact_match (req_Method req') = true ->
        exists resp, (dispatch req' t).1 = Some resp).
Proof.
  intros Hp Hex.
  assert (notification_routed req = true) as Hn.
  { unfold notification_routed. by rewrite Hex, Hp. }
  split_and!.
  - by rewrite dispatch_notification.
  - rewrite dispatch_notification by done. cbn [snd trace].
    by rewrite written_app, app_nil_r.
  - rewrite dispatch_notification by done. cbn [snd trace].
    by rewrite sent_app, app_nil_r.
  - intros text Hline Hreq.
    by destruct (Run_body_notification text req t Hline Hreq Hn) as (? & ? & _).
  - intros req' Hex'.
    destruct (dispatch_answered req' t) as (resp & t' & Hd & _).
    { unfold notification_routed. by rewrite Hex'. }
    exists resp. by rewrite Hd.
Qed.

Lemma dispatch_notification_prefix_witness :
  (Run_body line_notification_with_id (transport no_backend [])).1 = Continue
  /\ written (trace (Run_body line_notification_with_id
                       (transport no_backend [])).2) = [].
Proof.
  destruct (dispatch_notification_prefix
    (request (AFloat64 1) "notifications/initialized" None)
    (transport no_backend [])) as (_ & _ & _ & Hbody & _);
    [reflexivity|reflexivity|].
  apply (Hbody line_notification_with_id); [by vm_compute|by vm_compute].
Defined.






(** C2 fails on the code: a [ping] without an [id] is answered.  The run
    over that single line writes one line, a response without an [id]. *)
Theorem Run_answers_ping_without_id :
  exists req t',
    json_Unmarshal_JSONRPCRequest (strings_TrimSpace line_ping_no_id) = Ok req
    /\ is_nil (req_ID req) = true
    /\ Run background (transport no_backend [line_ping_no_id]) = (None, t')
    /\ written (trace t') = [ js "{'jsonrpc':'2.0','result':{}}" +:+ newline ].
Proof.
  eexists _, _. split_and!; [by vm_compute|by vm_compute|by vm_compute|done].
Qed.




(* ===================================================================== *)
(** ** Further properties of the value translator                         *)
(* ===================================================================== *)

Section FurtherTranslatorFacts.
Context `{Runtime}.

(** What the loop of [NewStruct] returns, entry by entry: it succeeds
    exactly when every key is UTF-8 and every value converts, and then the
    fields are the converted values under the same keys. *)
Lemma NewStruct_fields_Ok (conv : any -> Result Value)
    (m : gmap string any) (fields : gmap string Value) :
  NewStruct_fields conv m = Ok fields <->
  forall k,
    match m !! k with
    | Some v => utf8_ValidString k = true
                /\ exists x, conv v = Ok x /\ fields !! k = Some x
    | None => fields !! k = None
    end.
Proof.
  unfold NewStruct_fields. revert fields.
  induction m as [|i v m Hi Hfirst IH] using map_first_key_ind; intros fields.
  - rewrite map_fold_empty. split.
    + intros [= <-] k. by rewrite !lookup_empty.
    + intros Hk. f_equal. symmetry. apply map_empty. intros k.
      specialize (Hk k). by rewrite lookup_empty in Hk.
  - rewrite map_fold_insert_first_key by done. split.
    + destruct (map_fold _ _ m) as [x|e] eqn:Hfold; [|done]. simpl.
      destruct (utf8_ValidString i) eqn:Hvalid; [|done].
      destruct (conv v) as [y|e] eqn:Hconv; [|done]. simpl. intros [= <-] k.
      destruct (decide (i = k)) as [<-|Hne].
      * rewrite !lookup_insert_eq. eauto.
      * rewrite !lookup_insert_ne by done. by apply (IH x).
    + intros Hk. pose proof (Hk i) as Hki. rewrite lookup_insert_eq in Hki.
      destruct Hki as (Hvalid & y & Hconv & Hy).
      assert (map_fold (fun k v (acc : Result (gmap string Value)) =>
                x <-? acc;
                if utf8_ValidString k then y <-? conv v; Ok (<[k:=y]> x)
                else Err ("proto: invalid UTF-8 in string: " +:+ fmt_q k))
              (Ok ∅) m = Ok (delete i fields)) as ->.
      { apply IH. intros k. destruct (decide (i = k)) as [<-|Hne].
        - by rewrite Hi, lookup_delete_eq.
        - specialize (Hk k). rewrite lookup_insert_ne in Hk by done.
          by rewrite lookup_delete_ne. }
      simpl. rewrite Hvalid, Hconv. simpl. f_equal.
      rewrite insert_delete_eq. by apply insert_id.
Qed.



End FurtherTranslatorFacts.

Section FurtherTranslatorProperties.
Context `{Runtime}.

Lemma NewValue_valueToInterface_normalize (v : Value) :
  Value_utf8 v = true -> NewValue (valueToInterface v) = Ok (normalize v).
Proof.
  induction v as [| | | | | | |m IH| |l IH] using Value_ind'; try done.
  - simpl. by intros ->.
  - intros Hm. cbn [Value_utf8] in Hm.
    apply (map_fold_andb (fun k x => utf8_ValidString k && Value_utf8 x)) in Hm.
    cbn [valueToInterface normalize NewValue]. simpl.
    assert (NewStruct_fields NewValue (valueToInterface <$> m)
            = Ok (normalize <$> m)) as ->; [|done].
    apply NewStruct_fields_Ok. intros k. rewrite !lookup_fmap.
    destruct (m !! k) as [x|] eqn:Hk; [|done]. simpl.
    specialize (Hm k x Hk). apply andb_true_iff in Hm as [? ?].
    split; [done|]. exists (normalize x). split; [|done]. by eapply IH.
  - intros Hl. cbn [Value_utf8] in Hl. cbn [valueToInterface normalize NewValue].
    assert (NewList_values NewValue (map valueToInterface l)
            = Ok (map normalize l)) as ->; [|done].
    rewrite forallb_forall in Hl. rewrite Forall_forall in IH.
    assert (forall x, x ∈ l -> NewValue (valueToInterface x) = Ok (normalize x)) as Hx.
    { intros x Hx. apply IH; [done|]. apply Hl. by apply list_elem_of_In. }
    clear IH Hl. induction l as [|x l IHl]; [done|]. simpl.
    rewrite Hx by left. rewrite IHl; [done|]. intros y Hy. apply Hx. by right.
Qed.

Lemma normalize_expressible (v : Value) :
  Value_utf8 v = true -> Value_expressible (normalize v) = true.
Proof.
  induction v as [| | | | | | |m IH| |l IH] using Value_ind'; try done.
  - intros Hm. cbn [Value_utf8] in Hm.
    apply (map_fold_andb (fun k x => utf8_ValidString k && Value_utf8 x)) in Hm.
    cbn [normalize Value_expressible].
    apply (map_fold_andb (fun k x => utf8_ValidString k && Value_expressible x)).
    intros k y. rewrite lookup_fmap. destruct (m !! k) as [x|] eqn:Hk; [|done].
    intros [= <-]. specialize (Hm k x Hk). apply andb_true_iff in Hm as [-> ?].
    simpl. by eapply IH.
  - intros Hl. cbn [Value_utf8] in Hl. cbn [normalize Value_expressible].
    rewrite forallb_forall in Hl. apply forallb_forall.
    intros y (x & <- & Hx)%in_map_iff. rewrite Forall_forall in IH.
    apply IH; [by apply list_elem_of_In|]. by apply Hl.
Qed.

Lemma normalize_id (v : Value) :
  Value_expressible v = true -> normalize v = v.
Proof.
  induction v as [| | | | | | |m IH| |l IH] using Value_ind'; try done.
  - intros Hm. cbn [Value_expressible] in Hm.
    apply (map_fold_andb (fun k x => utf8_ValidString k && Value_expressible x)) in Hm.
    cbn [normalize]. do 2 f_equal. apply map_eq. intros k. rewrite lookup_fmap.
    destruct (m !! k) as [x|] eqn:Hk; [|done]. simpl. f_equal.
    specialize (Hm k x Hk). apply andb_true_iff in Hm as [_ ?]. by eapply IH.
  - intros Hl. cbn [Value_expressible] in Hl. cbn [normalize]. do 2 f_equal.
    rewrite forallb_forall in Hl. rewrite Forall_forall in IH.
    rewrite <- (map_id l) at 2. apply map_ext_in. intros x Hx.
    apply IH; [by apply list_elem_of_In|]. by apply Hl.
Qed.

(** X1. [MapToStruct] after [StructToMap], on any struct whose strings and
    keys are UTF-8: the result is the struct with what was absent in it
    made explicit (nil values, unset kinds and nil lists become the null
    kind, nil structs the empty struct).  That result is expressible in
    both models, and a struct that already is comes back unchanged. *)
Theorem MapToStruct_StructToMap_normalizes (fields : gmap string Value) :
  Value_utf8 (StructValue (Some fields)) = true ->
  MapToStruct (StructToMap (Some fields)) = Ok (Some (normalize <$> fields))
  /\ Fields_expressible (normalize <$> fields) = true
  /\ (Fields_expressible fields = true -> normalize <$> fields = fields).
Proof.
  intros Hutf8. split_and!.
  - pose proof (NewValue_valueToInterface_normalize _ Hutf8) as Hn.
    change (valueToInterface (StructValue (Some fields)))
      with (AMap (StructToMap (Some fields))) in Hn.
    rewrite NewValue_AMap in Hn. unfold MapToStruct.
    destruct (NewStruct _) as [s|e]; simpl in Hn; by simplify_eq.
  - apply (normalize_expressible _ Hutf8).
  - intros Hexp. apply normalize_id in Hexp. by simplify_eq/=.
Qed.

(** X2. [MapToStruct] neither drops nor adds a key: the struct it returns
    has exactly the keys of the map, each with the conversion of its value,
    and a key whose value is null is kept, with the null kind. *)
Theorem MapToStruct_keeps_keys (m : gmap string any) (s : Struct) :
  MapToStruct (Some m) = Ok s ->
  exists fields,
    s = Some fields
    /\ dom fields = dom m
    /\ (forall k v, m !! k = Some v ->
          exists x, NewValue v = Ok x /\ fields !! k = Some x)
    /\ (forall k, m !! k = Some ANil -> fields !! k = Some NullValue).
Proof.
  unfold MapToStruct, NewStruct.
  destruct (NewStruct_fields NewValue m) as [fields|e] eqn:Hf; [|done].
  intros [= <-]. exists fields.
  pose proof (proj1 (NewStruct_fields_Ok _ _ _) Hf) as Hk.
  assert (forall k v, m !! k = Some v ->
            exists x, NewValue v = Ok x /\ fields !! k = Some x) as Hvals.
  { intros k v Hv. specialize (Hk k). rewrite Hv in Hk.
    by destruct Hk as (_ & x & ? & ?); exists x. }
  split_and!; [done| |done|].
  - apply set_eq. intros k. rewrite !elem_of_dom. specialize (Hk k).
    destruct (m !! k) as [v|] eqn:Hv.
    + destruct Hk as (_ & x & _ & ->). by split; eauto.
    + rewrite Hk. by split; intros [? ?].
  - intros k Hv. by destruct (Hvals k ANil Hv) as (x & [= <-] & ?).
Qed.


End FurtherTranslatorProperties.

Import MoreDoubles.

Lemma MapToStruct_StructToMap_normalizes_witness :
  MapToStruct (StructToMap (Some struct_absent))
  = Ok (Some {[ "a" := NullValue; "b" := NullValue; "c" := NullValue;
                "d" := StructValue (Some ∅);
                "e" := ListValue (Some [NullValue; NumberValue 1]) ]}).
Proof.
  destruct (MapToStruct_StructToMap_normalizes struct_absent) as [-> _];
    [by vm_compute|]. by vm_compute.
Defined.

Lemma MapToStruct_keeps_keys_witness :
  exists fields,
    MapToStruct (Some map_with_nil_map) = Ok (Some fields)
    /\ fields !! "parent" = Some NullValue
    /\ fields !! "opts" = Some (StructValue (Some ∅)).
Proof.
  destruct (MapToStruct (Some map_with_nil_map)) as [s|e] eqn:Hs;
    [|by vm_compute in Hs].
  destruct (MapToStruct_keeps_keys _ _ Hs) as (fields & -> & _ & Hvals & Hnull).
  exists fields. split_and!; [done|by apply Hnull|].
  destruct (Hvals "opts" (AMap None)) as (x & [= <-] & ?); [by vm_compute|done].
Defined.


(* ===================================================================== *)
(** ** Further properties of the handlers and the loop                    *)
(* ===================================================================== *)

Section FurtherTransportFacts.
Context `{Runtime} {S W : Type} `{Sender S} `{Writer W}.

Implicit Types (t : @StdioTransport S W) (req : JSONRPCRequest).

(** *** The handlers leave the reader alone *)

Lemma with_reader_id t : with_reader (reader t) t = t.
Proof. by destruct t. Qed.

Lemma framed_ret {A} (a : A) : framed (S:=S) (W:=W) (ret a).
Proof. done. Qed.

Lemma framed_bind {A B} (m : @M S W A) (k : A -> @M S W B) :
  framed m -> (forall a, framed (k a)) -> framed (bind m k).
Proof.
  intros Hm Hk r t. unfold bind. rewrite Hm.
  destruct (m t) as [a t1]. simpl. apply Hk.
Qed.

Lemma framed_sender_Send preq : framed (S:=S) (W:=W) (sender_Send preq).
Proof. intros r t. unfold sender_Send. simpl. by destruct (Send _ _). Qed.

Lemma framed_writer_Write data : framed (S:=S) (W:=W) (writer_Write data).
Proof. intros r t. unfold writer_Write. simpl. by destruct (Write _ _). Qed.

Lemma framed_log_Printf msg : framed (S:=S) (W:=W) (log_Printf msg).
Proof. done. Qed.

Local Ltac solve_framed :=
  repeat first
    [ apply framed_ret
    | apply framed_sender_Send
    | apply framed_writer_Write
    | apply framed_log_Printf
    | apply framed_bind; [|intros ?]
    | match goal with
      | |- framed (match ?x with _ => _ end) => destruct x
      | |- framed (if ?x then _ else _) => destruct x
      end ].

Lemma framed_dispatch req : framed (S:=S) (W:=W) (dispatch req).
Proof.
  unfold dispatch, handleToolsList, handleToolsCall, handlePromptsList,
    handlePromptsGet.
  solve_framed.
Qed.

Lemma framed_writeResponse resp : framed (S:=S) (W:=W) (writeResponse resp).
Proof. unfold writeResponse. solve_framed. Qed.

Lemma framed_Run_body text : framed (S:=S) (W:=W) (Run_body text).
Proof.
  unfold Run_body. destruct (decide _); [apply framed_ret|].
  destruct (json_Unmarshal_JSONRPCRequest _).
  - apply framed_bind; [apply framed_dispatch|]. intros [resp|]; [|apply framed_ret].
    apply framed_bind; [apply framed_writeResponse|]. intros [werr|]; apply framed_ret.
  - apply framed_bind; [apply framed_writeResponse|]. intros [werr|]; apply framed_ret.
Qed.

Lemma framed_reader {A} (m : @M S W A) t : framed m -> reader (m t).2 = reader t.
Proof.
  intros Hm. pose proof (Hm (reader t) t) as Ht. rewrite with_reader_id in Ht.
  destruct (m t) as [a t1]. simpl in *. by injection Ht as ->.
Qed.

Lemma Run_body_reader text t : reader (Run_body text t).2 = reader t.
Proof. apply framed_reader, framed_Run_body. Qed.

End FurtherTransportFacts.

Section FurtherHandlerFacts.
Context `{Runtime} {S W : Type} `{Sender S} `{Writer W}.

Implicit Types (t : @StdioTransport S W) (req : JSONRPCRequest).

Lemma answers_local req t resp :
  JSONRPC resp = "2.0" -> ID resp = req_ID req -> result_xor_error resp = true ->
  answers req t (resp, t).
Proof. intros. unfold answers. split_and!; auto. Qed.

Lemma sender_Send_trace preq t :
  trace (sender_Send preq t).2 = trace t ++ [EvSend preq]
  /\ reader (sender_Send preq t).2 = reader t
  /\ writer (sender_Send preq t).2 = writer t.
Proof. unfold sender_Send. by destruct (Send _ _). Qed.

Local Ltac local_answer := by apply answers_local.

Local Ltac after_Send t :=
  unfold bind;
  match goal with
  | |- context [sender_Send ?preq t] =>
      let Hs := fresh "Hs" in
      pose proof (sender_Send_trace preq t) as Hs;
      destruct (sender_Send preq t) as [[?|?] ?]; simpl in Hs;
      destruct Hs as (? & ? & ?)
  end;
  repeat match goal with
         | |- answers _ _ (match ?x with _ => _ end _) => destruct x
         end;
  unfold answers; split_and!; eauto.

Lemma handleInitialize_answers req t : answers req t (handleInitialize req, t).
Proof. local_answer. Qed.

Lemma handlePing_answers req t : answers req t (handlePing req, t).
Proof. local_answer. Qed.

Lemma handleToolsList_answers req t : answers req t (handleToolsList req t).
Proof. unfold handleToolsList. after_Send t. Qed.

Lemma handlePromptsList_answers req t : answers req t (handlePromptsList req t).
Proof. unfold handlePromptsList. after_Send t. Qed.

Lemma handleToolsCall_answers req t : answers req t (handleToolsCall req t).
Proof.
  unfold handleToolsCall.
  destruct (toolCallParams_of req) as [params|err]; [|local_answer].
  destruct (decide _); [local_answer|].
  destruct (toolCall_args params) as [args|err]; [|local_answer].
  after_Send t.
Qed.

Lemma handlePromptsGet_answers req t : answers req t (handlePromptsGet req t).
Proof.
  unfold handlePromptsGet.
  destruct (promptGetParams_of req) as [params|err]; [|local_answer].
  destruct (decide _); [local_answer|].
  after_Send t.
Qed.

(** [dispatch] answers, or it is the nil response of a notification, with
    nothing but a log entry. *)
Lemma dispatch_cases req t :
  (exists resp t', dispatch req t = (Some resp, t') /\ answers req t (resp, t')
                   /\ notification_routed req = false)
  \/ (notification_routed req = true
      /\ dispatch req t = (None, {| sender := sender t; reader := reader t;
            writer := writer t;
            trace := trace t ++ [EvLog ("notification: " +:+ req_Method req)] |})).
Proof.
  destruct (notification_routed req) eqn:Hn.
  { right. split; [done|]. by apply dispatch_notification. }
  left. unfold dispatch.
  destruct (decide _); [eexists _, _; split_and!; [done|apply handleInitialize_answers|done]|].
  destruct (decide _); [eexists _, _; split_and!; [done|apply handlePing_answers|done]|].
  destruct (decide _).
  { unfold bind. pose proof (handleToolsList_answers req t).
    destruct (handleToolsList req t); by eexists _, _. }
  destruct (decide _).
  { unfold bind. pose proof (handleToolsCall_answers req t).
    destruct (handleToolsCall req t); by eexists _, _. }
  destruct (decide _).
  { unfold bind. pose proof (handlePromptsList_answers req t).
    destruct (handlePromptsList req t); by eexists _, _. }
  destruct (decide _).
  { unfold bind. pose proof (handlePromptsGet_answers req t).
    destruct (handlePromptsGet req t); by eexists _, _. }
  assert (exact_match (req_Method req) = false) as Hex.
  { unfold exact_match, exact_methods. apply bool_decide_eq_false. intros Hm.
    repeat (apply elem_of_cons in Hm as [?|Hm]; [done|]).
    by apply elem_of_nil in Hm. }
  unfold notification_routed in Hn. rewrite Hex in Hn. simpl in Hn. rewrite Hn.
  eexists _, _; split_and!; [done| |done]. by apply answers_local.
Qed.

End FurtherHandlerFacts.

(** X4. Every response [dispatch] returns is a well-formed envelope for
    its request: the version tag is [2.0], the [id] is the request's, and
    it has a result or an error, never both and never neither.  This holds
    for all six handlers and for the unknown-method answer, whatever the
    backend replies. *)
Theorem dispatch_response_envelope `{Runtime} {S W : Type} `{Sender S} `{Writer W}
    (req : JSONRPCRequest) (t t' : @StdioTransport S W) (resp : JSONRPCResponse) :
  dispatch req t = (Some resp, t') ->
  JSONRPC resp = "2.0" /\ ID resp = req_ID req /\ result_xor_error resp = true.
Proof.
  intros Hd. destruct (dispatch_cases req t)
    as [(resp' & t1 & Hd' & Ha & _)|[_ Hd']]; rewrite Hd in Hd'; [|done].
  injection Hd' as <- <-. by destruct Ha as (? & ? & ? & _).
Qed.

Lemma dispatch_response_envelope_witness :
  exists resp,
    (dispatch request_tools_call (transport refusing [])).1 = Some resp
    /\ ID resp = AFloat64 5 /\ result_xor_error resp = true.
Proof.
  destruct (dispatch request_tools_call (transport refusing [])) as [[resp|] t']
    eqn:Hd; [|by vm_compute in Hd].
  exists resp. split; [done|].
  by destruct (dispatch_response_envelope _ _ _ _ Hd) as (_ & -> & ->).
Defined.

(** X5. [dispatch] calls the backend at most once for a request, and never
    writes.  For every method other than [tools/list], [tools/call],
    [prompts/list] and [prompts/get] (so for [initialize], [ping],
    notifications and unknown methods) it does not call the backend at
    all: the sender is left as it was. *)
Theorem dispatch_backend_calls `{Runtime} {S W : Type} `{Sender S} `{Writer W}
    (req : JSONRPCRequest) (t : @StdioTransport S W) :
  (sent (trace (dispatch req t).2) = sent (trace t)
   \/ exists preq, sent (trace (dispatch req t).2) = sent (trace t) ++ [preq])
  /\ written (trace (dispatch req t).2) = written (trace t)
  /\ writer (dispatch req t).2 = writer t
  /\ (req_Method req ∉ ["tools/list"; "tools/call"; "prompts/list"; "prompts/get"] ->
      sender (dispatch req t).2 = sender t
      /\ sent (trace (dispatch req t).2) = sent (trace t)).
Proof.
  destruct (dispatch_cases req t)
    as [(resp & t1 & Hd & Ha & Hn)|[Hn Hd]]; rewrite Hd; cbn [fst snd].
  - destruct Ha as (_ & _ & _ & _ & Hw & Htr). cbn [fst snd] in *.
    split_and!; [| |done|].
    + destruct Htr as [[-> _]|[preq ->]]; [by left|right].
      exists preq. by rewrite sent_app.
    + destruct Htr as [[-> _]|[preq ->]]; [done|].
      by rewrite written_app, app_nil_r.
    + intros Hm. unfold dispatch in Hd.
      repeat (destruct (decide _) as [Heq|?];
              [first [by injection Hd as <- <-
                     |exfalso; apply Hm; rewrite Heq;
                      repeat first [apply list_elem_of_here
                                   |apply list_elem_of_further]]|]).
      destruct (String.prefix _ _); [done|]. by injection Hd as <- <-.
  - cbn [trace sender writer]. rewrite written_app, sent_app, !app_nil_r.
    split_and!; auto.
Qed.

Lemma dispatch_backend_calls_witness :
  sender (dispatch (request (AFloat64 1) "initialize" None)
            (transport refusing [])).2 = refusing
  /\ sent (trace (dispatch (request (AFloat64 1) "initialize" None)
                    (transport refusing [])).2) = [].
Proof.
  destruct (dispatch_backend_calls (request (AFloat64 1) "initialize" None)
              (transport refusing [])) as (_ & _ & _ & Hlocal).
  apply Hlocal. cbn [req_Method request]. intros Hm.
  repeat (apply elem_of_cons in Hm as [?|Hm]; [done|]). by apply elem_of_nil in Hm.
Defined.

(** X6. [tools/call] reaches the backend exactly when its [params] decode,
    name a tool and have arguments that convert; the one request sent then
    carries the tool name as given, the converted arguments (absent when
    the arguments were nil), the caller tag [transport.stdio] and the
    correlation id [stdio-tc-] followed by the request's id. *)
Theorem handleToolsCall_forwards `{Runtime} {S W : Type} `{Sender S} `{Writer W}
    (req : JSONRPCRequest) (t : @StdioTransport S W) :
  (forall params args,
     toolCallParams_of req = Ok params ->
     tc_Name params <> EmptyString ->
     toolCall_args params = Ok args ->
     sent (trace (handleToolsCall req t).2)
     = sent (trace t) ++ [tool_call_request req params args])
  /\ (sent (trace (handleToolsCall req t).2) <> sent (trace t) ->
      exists params args,
        toolCallParams_of req = Ok params
        /\ tc_Name params <> EmptyString
        /\ toolCall_args params = Ok args).
Proof.
  unfold handleToolsCall. split.
  - intros params args -> Hname ->. destruct (decide _); [done|].
    unfold bind. fold (tool_call_request req params args).
    pose proof (sender_Send_trace (tool_call_request req params args) t) as (Htr & _).
    destruct (sender_Send _ t) as [[resp|err] t1]; cbn [snd] in Htr.
    + destruct (GetToolCall resp); cbn [snd ret]; by rewrite Htr, sent_app.
    + cbn [snd ret]. by rewrite Htr, sent_app.
  - intros Hne.
    destruct (toolCallParams_of req) as [params|err]; [|by destruct Hne].
    destruct (decide _); [by destruct Hne|].
    destruct (toolCall_args params) as [args|err] eqn:Hargs; [|by destruct Hne].
    by exists params, args.
Qed.

Lemma handleToolsCall_forwards_witness :
  sent (trace (handleToolsCall request_tools_call (transport refusing [])).2)
  = [ {| RequestId := "stdio-tc-5";
         Request := PluginRequest_ToolCall
           {| ToolName := "create_feature"; Arguments := Some ∅;
              CallerPlugin := "transport.stdio" |} |} ].
Proof.
  destruct (handleToolsCall_forwards request_tools_call (transport refusing []))
    as [Hsent _].
  by rewrite (Hsent {| tc_Name := "create_feature"; tc_Arguments := Some ∅ |} (Some ∅)).
Defined.

(** X7. When the backend replies to [tools/call] with a tool response, the
    answer is a result, never a JSON-RPC error, also when the tool itself
    failed: the result is the rendered tool response, whose [isError] is
    set exactly when the tool reports no success. *)
Theorem handleToolsCall_tool_result `{Runtime} {S W : Type} `{Sender S} `{Writer W}
    (req : JSONRPCRequest) (t : @StdioTransport S W)
    (params : toolCallParams) (args : Struct)
    (resp : option PluginResponse) (tc : ToolResponse) (s' : S) :
  toolCallParams_of req = Ok params ->
  tc_Name params <> EmptyString ->
  toolCall_args params = Ok args ->
  Send (tool_call_request req params args) (sender t) = (Ok resp, s') ->
  GetToolCall resp = Some tc ->
  (handleToolsCall req t).1
  = result_response (req_ID req) (Result_MCPToolResult (ToolResponseToMCP (Some tc)))
  /\ Error (handleToolsCall req t).1 = None
  /\ IsError (ToolResponseToMCP (Some tc)) = negb (ToolResponse_Success tc)
  /\ sender (handleToolsCall req t).2 = s'.
Proof.
  intros Hp Hname Hargs Hsend Htc. unfold handleToolsCall.
  rewrite Hp. destruct (decide _); [done|]. rewrite Hargs.
  unfold bind, sender_Send. fold (tool_call_request req params args).
  rewrite Hsend, Htc. split_and!; try done.
  unfold ToolResponseToMCP. cbn [GetSuccess].
  by destruct (ToolResponse_Success tc).
Qed.

Lemma handleToolsCall_tool_result_witness :
  (handleToolsCall request_tools_call (transport failing_tool [])).1
  = result_response (AFloat64 5)
      (Result_MCPToolResult (text_result "tool not found" true)).
Proof.
  refine (proj1 (handleToolsCall_tool_result request_tools_call
    (transport failing_tool [])
    {| tc_Name := "create_feature"; tc_Arguments := Some ∅ |} (Some ∅)
    _ tool_failure failing_tool _ _ _ _ _));
    [reflexivity|discriminate|reflexivity|reflexivity|reflexivity].
Defined.

(** X8. When the backend replies to [tools/list] with its tools, the answer
    lists one tool for each of them, in the backend's order, with name and
    description unchanged (empty for a nil entry).  A tool without an input
    schema gets a null schema, not an empty object; a tool with one gets a
    map with exactly the keys of the schema. *)
Theorem handleToolsList_tools `{Runtime} {S W : Type} `{Sender S} `{Writer W}
    (req : JSONRPCRequest) (t : @StdioTransport S W)
    (resp : option PluginResponse) (lt : ListToolsResponse) (s' : S) :
  Send {| RequestId := "stdio-lt-" +:+ fmt_v (req_ID req);
          Request := PluginRequest_ListTools |} (sender t) = (Ok resp, s') ->
  GetListTools resp = Some lt ->
  exists tools,
    (handleToolsList req t).1
    = result_response (req_ID req) (Result_toolsListResult tools)
    /\ length tools = length (ListToolsResponse_Tools lt)
    /\ forall i td, ListToolsResponse_Tools lt !! i = Some td ->
         exists d,
           tools !! i = Some d
           /\ MCPToolDefinition_Name d = ToolDefinition_GetName td
           /\ MCPToolDefinition_Description d = ToolDefinition_GetDescription td
           /\ (GetInputSchema td = None -> MCPToolDefinition_InputSchema d = ANil)
           /\ (forall fields, GetInputSchema td = Some fields ->
                 exists m, MCPToolDefinition_InputSchema d = AMap (Some m)
                           /\ dom m = dom fields).
Proof.
  intros Hsend Hlt. exists (map ToolDefinitionToMCP (ListToolsResponse_Tools lt)).
  split_and!.
  - unfold handleToolsList, bind, sender_Send. by rewrite Hsend, Hlt.
  - by rewrite length_map.
  - intros i td Hi. exists (ToolDefinitionToMCP td). split_and!; try done.
    + change (map ToolDefinitionToMCP ?l) with (ToolDefinitionToMCP <$> l).
      by rewrite list_lookup_fmap, Hi.
    + intros Hnil. unfold ToolDefinitionToMCP. by rewrite Hnil.
    + intros fields Hs. unfold ToolDefinitionToMCP. rewrite Hs. simpl.
      eexists. split; [done|]. apply dom_fmap_L.
Qed.

Lemma handleToolsList_tools_witness :
  exists tools,
    (handleToolsList (request (AFloat64 7) "tools/list" None)
       (transport listing [])).1
    = result_response (AFloat64 7) (Result_toolsListResult tools)
    /\ map MCPToolDefinition_Name tools = ["create_feature"; EmptyString; "health"]
    /\ map MCPToolDefinition_InputSchema (drop 1 tools) = [ANil; ANil].
Proof.
  destruct (handleToolsList_tools (request (AFloat64 7) "tools/list" None)
    (transport listing [])
    (Some {| ResponseRequestId := "stdio-lt-7";
             Response := PluginResponse_ListTools
               (Some {| ListToolsResponse_Tools :=
                          [Some tool_create; None; Some tool_plain] |}) |})
    {| ListToolsResponse_Tools := [Some tool_create; None; Some tool_plain] |}
    listing) as (tools & Hresp & _ & _); [reflexivity|reflexivity|].
  exists tools. split; [done|].
  assert (tools = map ToolDefinitionToMCP [Some tool_create; None; Some tool_plain])
    as -> by (vm_compute in Hresp; by simplify_eq).
  by vm_compute.
Defined.

(** X9. [prompts/get] whose [params] are missing, cannot be decoded, or
    have no (or an empty) [name] is answered with an InvalidParams error,
    the message naming [name] when that is what is missing, and the
    transport is left as it was: the backend is not called. *)
Theorem handlePromptsGet_invalid_params `{Runtime} {S W : Type} `{Sender S} `{Writer W}
    (req : JSONRPCRequest) (t : @StdioTransport S W) :
  (forall raw err,
     req_Params req = Some raw ->
     json_Unmarshal_promptGetParams raw = Err err ->
     handlePromptsGet req t
     = (error_response (req_ID req) InvalidParams ("invalid params: " +:+ err), t))
  /\ (req_Params req = None ->
      handlePromptsGet req t
      = (error_response (req_ID req) InvalidParams "missing required parameter: name", t))
  /\ (forall params,
      promptGetParams_of req = Ok params ->
      pg_Name params = EmptyString ->
      handlePromptsGet req t
      = (error_response (req_ID req) InvalidParams "missing required parameter: name", t)).
Proof.
  unfold handlePromptsGet, promptGetParams_of. split_and!.
  - intros raw err -> ->. done.
  - intros ->. done.
  - intros params Hp Hname. unfold promptGetParams_of. rewrite Hp.
    by destruct (decide _).
Qed.

Lemma handlePromptsGet_invalid_params_witness :
  handlePromptsGet (request (AFloat64 13) "prompts/get" (Some "{}"))
    (transport prompting [])
  = (error_response (AFloat64 13) InvalidParams "missing required parameter: name",
     transport prompting []).
Proof.
  destruct (handlePromptsGet_invalid_params
    (request (AFloat64 13) "prompts/get" (Some "{}")) (transport prompting []))
    as (_ & _ & Hname).
  by apply (Hname {| pg_Name := EmptyString; pg_Arguments := None |}).
Defined.

(** X10. When [Send] fails, [prompts/list] and [prompts/get] are answered
    with an InternalError whose message ends in the text of the failure;
    when the reply is not of the kind asked for, with the InternalError
    [unexpected response type from orchestrator]. *)
Theorem prompts_backend_failure `{Runtime} {S W : Type} `{Sender S} `{Writer W}
    (req : JSONRPCRequest) (t : @StdioTransport S W) :
  let list_prompts :=
    {| RequestId := "stdio-lp-" +:+ fmt_v (req_ID req);
       Request := PluginRequest_ListPrompts |} in
  (forall err s',
     Send list_prompts (sender t) = (Err err, s') ->
     (handlePromptsList req t).1
     = error_response (req_ID req) InternalError
         ("orchestrator list_prompts failed: " +:+ err))
  /\ (forall resp s',
      Send list_prompts (sender t) = (Ok resp, s') ->
      GetListPrompts resp = None ->
      (handlePromptsList req t).1
      = error_response (req_ID req) InternalError
          "unexpected response type from orchestrator")
  /\ (forall params err s',
      promptGetParams_of req = Ok params ->
      pg_Name params <> EmptyString ->
      Send (prompt_get_request req params) (sender t) = (Err err, s') ->
      (handlePromptsGet req t).1
      = error_response (req_ID req) InternalError
          ("orchestrator prompt_get failed: " +:+ err)
      /\ Contains ("orchestrator prompt_get failed: " +:+ err) err)
  /\ (forall params resp s',
      promptGetParams_of req = Ok params ->
      pg_Name params <> EmptyString ->
      Send (prompt_get_request req params) (sender t) = (Ok resp, s') ->
      GetPromptGet resp = None ->
      (handlePromptsGet req t).1
      = error_response (req_ID req) InternalError
          "unexpected response type from orchestrator").
Proof.
  intros list_prompts. split_and!.
  - intros err s' Hsend.
    unfold handlePromptsList, bind, sender_Send. fold list_prompts. by rewrite Hsend.
  - intros resp s' Hsend Hshape.
    unfold handlePromptsList, bind, sender_Send. fold list_prompts.
    rewrite Hsend. by rewrite Hshape.
  - intros params err s' Hp Hname Hsend. split; [|apply Contains_suffix].
    unfold handlePromptsGet. rewrite Hp. destruct (decide _); [done|].
    unfold bind, sender_Send. fold (prompt_get_request req params).
    by rewrite Hsend.
  - intros params resp s' Hp Hname Hsend Hshape.
    unfold handlePromptsGet. rewrite Hp. destruct (decide _); [done|].
    unfold bind, sender_Send. fold (prompt_get_request req params).
    rewrite Hsend. by rewrite Hshape.
Qed.

Lemma prompts_backend_failure_witness :
  (handlePromptsGet (H:=prompt_runtime) request_prompts_get (transport refusing [])).1
  = error_response (AFloat64 12) InternalError
      "orchestrator prompt_get failed: connection refused"
  /\ (handlePromptsList (request (AFloat64 14) "prompts/list" None)
        (transport listing [])).1
     = error_response (AFloat64 14) InternalError
         "unexpected response type from orchestrator".
Proof.
  split.
  - destruct (prompts_backend_failure (H:=prompt_runtime) request_prompts_get
      (transport refusing [])) as (_ & _ & Hfail & _).
    refine (proj1 (Hfail {| pg_Name := "review"; pg_Arguments := None |}
      "connection refused" refusing _ _ _));
      [reflexivity|discriminate|reflexivity].
  - destruct (prompts_backend_failure (request (AFloat64 14) "prompts/list" None)
      (transport listing [])) as (_ & Hshape & _).
    refine (Hshape (Some {| ResponseRequestId := "stdio-lp-14";
                            Response := PluginResponse_ListTools
                              (Some {| ListToolsResponse_Tools :=
                                 [Some tool_create; None; Some tool_plain] |}) |})
              listing _ _); reflexivity.
Defined.



(** X12. When the backend replies to [prompts/list] with its prompts, the
    answer lists one prompt for each of them, in the backend's order, with
    name and description unchanged (empty for a nil entry) and as many
    arguments as the backend gave, each with its name, description and
    required flag. *)
Theorem handlePromptsList_prompts `{Runtime} {S W : Type} `{Sender S} `{Writer W}
    (req : JSONRPCRequest) (t : @StdioTransport S W)
    (resp : option PluginResponse) (lp : ListPromptsResponse) (s' : S) :
  Send {| RequestId := "stdio-lp-" +:+ fmt_v (req_ID req);
          Request := PluginRequest_ListPrompts |} (sender t) = (Ok resp, s') ->
  GetListPrompts resp = Some lp ->
  exists prompts,
    (handlePromptsList req t).1
    = result_response (req_ID req) (Result_promptsListResult prompts)
    /\ length prompts = length (ListPromptsResponse_Prompts lp)
    /\ (forall i pd, ListPromptsResponse_Prompts lp !! i = Some (Some pd) ->
          exists d,
            prompts !! i = Some d
            /\ MCPPromptDefinition_Name d = PromptDefinition_Name pd
            /\ MCPPromptDefinition_Description d = PromptDefinition_Description pd
            /\ length (MCPPromptDefinition_Arguments d)
               = length (PromptDefinition_Arguments pd)
            /\ forall j a, PromptDefinition_Arguments pd !! j = Some (Some a) ->
                 MCPPromptDefinition_Arguments d !! j
                 = Some {| MCPPromptArgument_Name := PromptArgument_Name a;
                           MCPPromptArgument_Description := PromptArgument_Description a;
                           MCPPromptArgument_Required := PromptArgument_Required a |})
    /\ (forall i, ListPromptsResponse_Prompts lp !! i = Some None ->
          prompts !! i
          = Some {| MCPPromptDefinition_Name := EmptyString;
                    MCPPromptDefinition_Description := EmptyString;
                    MCPPromptDefinition_Arguments := [] |}).
Proof.
  intros Hsend Hlp.
  exists (map PromptDefinitionToMCP (ListPromptsResponse_Prompts lp)).
  change (map PromptDefinitionToMCP ?l) with (PromptDefinitionToMCP <$> l).
  split_and!.
  - unfold handlePromptsList, bind, sender_Send. by rewrite Hsend, Hlp.
  - by rewrite length_fmap.
  - intros i pd Hi. exists (PromptDefinitionToMCP (Some pd)).
    rewrite list_lookup_fmap, Hi. split_and!; try done.
    + simpl. by rewrite length_map.
    + intros j a Hj. simpl.
      change (map PromptArgumentToMCP ?l) with (PromptArgumentToMCP <$> l).
      by rewrite list_lookup_fmap, Hj.
  - intros i Hi. by rewrite list_lookup_fmap, Hi.
Qed.

Lemma handlePromptsList_prompts_witness :
  exists prompts,
    (handlePromptsList (request (AFloat64 14) "prompts/list" None)
       (transport prompting [])).1
    = result_response (AFloat64 14) (Result_promptsListResult prompts)
    /\ map MCPPromptDefinition_Name prompts = ["review"; EmptyString].
Proof.
  destruct (handlePromptsList_prompts (request (AFloat64 14) "prompts/list" None)
    (transport prompting [])
    (Some {| ResponseRequestId := "stdio-lp-14";
             Response := PluginResponse_ListPrompts
               (Some {| ListPromptsResponse_Prompts := [Some prompt_review; None] |}) |})
    {| ListPromptsResponse_Prompts := [Some prompt_review; None] |} prompting)
    as (prompts & Hresp & _ & _); [reflexivity|reflexivity|].
  exists prompts. split; [done|].
  assert (prompts = map PromptDefinitionToMCP [Some prompt_review; None])
    as -> by (vm_compute in Hresp; by simplify_eq).
  by vm_compute.
Defined.

Section FurtherLoopFacts.
Context `{Runtime} {S W : Type} `{Sender S} `{Writer W}.

Implicit Types (t : @StdioTransport S W) (req : JSONRPCRequest).

Lemma writeResponse_failed resp t w t' :
  writeResponse resp t = (Some w, t') ->
  written (trace t') = written (trace t)
  /\ ((exists data, trace t' = trace t ++ [EvWrite data (Some w)])
      \/ (exists m, json_Marshal_JSONRPCResponse resp = Err m
                   /\ w = "marshal response: " +:+ m /\ t' = t)).
Proof.
  intros Hw. split; [by apply silent_written, (writeResponse_fail resp t w)|].
  unfold writeResponse in Hw.
  destruct (json_Marshal_JSONRPCResponse resp) as [data|m].
  - left. unfold writer_Write in Hw. destruct (Write _ _) as [e w'].
    injection Hw as -> <-. eauto.
  - right. injection Hw as <- <-. eauto.
Qed.

Lemma write_failed_of resp t w t' :
  writeResponse resp t = (Some w, t') -> write_failed w t'.
Proof.
  intros [_ [[data Htr]|(m & Hm & -> & _)]]%writeResponse_failed.
  - left. exists data. by rewrite Htr, last_snoc.
  - right. eauto.
Qed.

(** A pass of the body that returns has written nothing, and returns the
    failure of a write. *)
Lemma Run_body_Return text t err t' :
  Run_body text t = (Return err, t') ->
  written (trace t') = written (trace t)
  /\ exists w,
       (err = "write response: " +:+ w
        \/ err = "write parse error response: " +:+ w)
       /\ write_failed w t'.
Proof.
  unfold Run_body. destruct (decide _); [done|].
  destruct (json_Unmarshal_JSONRPCRequest _) as [req|perr]; unfold bind.
  - destruct (dispatch_cases req t) as [(resp & t1 & -> & Ha & _)|[_ ->]]; [|done].
    destruct (writeResponse resp t1) as [[w|] t2] eqn:Hw; [|done].
    intros [= <- <-]. split.
    + destruct (writeResponse_failed _ _ _ _ Hw) as [-> _].
      unfold answers in Ha. cbn [fst snd] in Ha.
      destruct Ha as (_ & _ & _ & _ & _ & [[-> _]|[preq ->]]); [done|].
      by rewrite written_app, app_nil_r.
    + exists w. split; [by left|]. by eapply write_failed_of.
  - destruct (writeResponse _ t) as [[w|] t2] eqn:Hw; [|done].
    intros [= <- <-]. split; [by destruct (writeResponse_failed _ _ _ _ Hw)|].
    exists w. split; [by right|]. by eapply write_failed_of.
Qed.

End FurtherLoopFacts.



(** X14. [Run] returns an error for three reasons only: the cancellation
    signal was seen (the error is the context's), the scanner failed (the
    error is [scanner error: ] and the scanner's), or the write of a
    response failed (the error is [write response: ] or
    [write parse error response: ] and the failure of the write: the
    writer's error, or [marshal response: ] and the serialization error).
    Malformed lines, unknown methods, invalid parameters and failures of
    the backend never end the loop. *)
Theorem Run_error_causes `{Runtime} {S W : Type} `{Sender S} `{Writer W}
    (ctx : Context) (t t' : @StdioTransport S W) (err : error) :
  Run ctx t = (Some err, t') ->
  (exists i, ctx i = Some err)
  \/ (exists e, scan_err (reader t) = Some e /\ err = "scanner error: " +:+ e)
  \/ (exists w,
        (err = "write response: " +:+ w
         \/ err = "write parse error response: " +:+ w)
        /\ write_failed w t').
Proof.
  unfold Run. generalize 0 as i. generalize (tokens (reader t)) as toks.
  intros toks.
  assert (scan_err (reader t) = scan_err (reader t)) as Herr by done.
  revert Herr. generalize t at 2 4 as t1. revert t.
  induction toks as [|text rest IH]; intros t t1 Herr i.
  - simpl. rewrite <- Herr. destruct (scan_err (reader t)) as [e|]; [|done].
    intros [= <- <-]. right. left. eauto.
  - rewrite Run_loop_cons. cbv zeta. destruct (ctx i) as [cerr|] eqn:Hctx.
    { intros [= <- <-]. left. eauto. }
    match goal with |- context [Run_body text ?t0] =>
      pose proof (Run_body_reader text t0) as Hreader;
      destruct (Run_body text t0) as [[|berr] t2] eqn:Hbody end.
    + cbn [snd] in Hreader. apply (IH t2 t1). by rewrite Hreader.
    + intros [= <- <-]. right. right.
      by apply Run_body_Return in Hbody as [_ ?].
Qed.

Lemma Run_error_causes_witness :
  let run := Run background (transport_closed no_backend [line_notification; line_ping]) in
  run.1 = Some "write response: write |1: broken pipe"
  /\ write_failed "write |1: broken pipe" run.2.
Proof.
  intros run. subst run.
  destruct (Run background (transport_closed no_backend [line_notification; line_ping]))
    as [r t'] eqn:Hrun.
  assert (r = Some "write response: write |1: broken pipe") as ->
    by (by vm_compute in Hrun; simplify_eq).
  split; [done|].
  destruct (Run_error_causes _ _ _ _ Hrun) as [[i Hi]|[(e & He & _)|(w & Hw & Hfail)]];
    [done|done|].
  destruct Hw as [Hw|Hw]; cbv in Hw; by simplify_eq.
Defined.

Section BlankLines.
Context `{Runtime} {S W : Type} `{Sender S} `{Writer W}.

Implicit Types (t : @StdioTransport S W).

Lemma same_io_with_reader t1 t2 : same_io t1 t2 -> t2 = with_reader (reader t2) t1.
Proof.
  intros (Hs & Hw & Htr & _). destruct t1, t2. unfold with_reader. simpl in *.
  by subst.
Qed.

Lemma Run_body_same_io text t1 t2 :
  same_io t1 t2 ->
  (Run_body text t1).1 = (Run_body text t2).1
  /\ same_io (Run_body text t1).2 (Run_body text t2).2.
Proof.
  intros Hio. pose proof (Run_body_reader text t1) as Hr.
  rewrite (same_io_with_reader _ _ Hio), framed_Run_body. cbn [fst snd].
  split; [done|]. destruct Hio as (_ & _ & _ & Herr).
  unfold same_io, with_reader. cbn [sender reader writer trace].
  by rewrite Hr.
Qed.

Lemma Run_body_blank text t : blank text -> Run_body text t = (Continue, t).
Proof. intros Hb. unfold Run_body. by destruct (decide _). Qed.

Lemma Run_loop_skips_blank ctx toks :
  (forall i, ctx i = None) ->
  forall i j t1 t2,
    same_io t1 t2 ->
    (Run_loop ctx i toks t1).1
    = (Run_loop ctx j (filter (fun text => ~ blank text) toks) t2).1
    /\ same_io (Run_loop ctx i toks t1).2
         (Run_loop ctx j (filter (fun text => ~ blank text) toks) t2).2.
Proof.
  intros Hctx. induction toks as [|text rest IH]; intros i j t1 t2 Hio.
  - simpl. destruct Hio as (? & ? & ? & Herr). rewrite Herr. by split.
  - rewrite Run_loop_cons. cbv zeta. rewrite Hctx.
    destruct (decide (blank text)) as [Hb|Hb].
    + rewrite filter_cons_False by (intros Hn; by apply Hn).
      rewrite Run_body_blank by done. apply IH.
      destruct Hio as (? & ? & ? & ?). by split_and!.
    + rewrite filter_cons_True by done. rewrite Run_loop_cons. cbv zeta.
      rewrite Hctx.
      match goal with
      | |- context [Run_body text ?a] =>
          match goal with
          | |- context [Run_body text ?b] =>
              tryif constr_eq a b then fail else
                destruct (Run_body_same_io text a b) as [Hstep Hio'];
                [destruct Hio as (? & ? & ? & ?); by split_and!|]
          end
      end.
      match goal with
      | |- context [Run_body text ?a] =>
          destruct (Run_body text a) as [[|e1] a1]
      end;
      match goal with
      | |- context [Run_body text ?b] =>
          destruct (Run_body text b) as [[|e2] b1]
      end; cbn [fst snd] in *; try done.
      * by apply IH.
      * by simplify_eq.
Qed.

End BlankLines.

(** X15. Blank lines do not count: when the run is not cancelled, a run
    over an input and a run over the same input without its blank lines
    (the lines that are empty once trimmed) return the same, send the same
    requests and write the same lines, with the same effects in the same
    order. *)
Theorem Run_skips_blank_lines `{Runtime} {S W : Type} `{Sender S} `{Writer W}
    (ctx : Context) (t : @StdioTransport S W) :
  (forall i, ctx i = None) ->
  let t2 :=
    with_reader {| tokens := filter (fun text => ~ blank text) (tokens (reader t));
                   scan_err := scan_err (reader t) |} t in
  (Run ctx t).1 = (Run ctx t2).1
  /\ trace (Run ctx t).2 = trace (Run ctx t2).2
  /\ sender (Run ctx t).2 = sender (Run ctx t2).2
  /\ writer (Run ctx t).2 = writer (Run ctx t2).2.
Proof.
  intros Hctx t2. unfold Run. subst t2. cbn [reader with_reader tokens].
  edestruct (Run_loop_skips_blank ctx (tokens (reader t)) Hctx 0 0 t) as [Hr Hio];
    [|split; [exact Hr|]].
  - by split_and!.
  - destruct Hio as (? & ? & ? & _). by split_and!.
Qed.

Lemma Run_skips_blank_lines_witness :
  writer (Run background
            (transport no_backend
               [EmptyString; "  "; line_ping; EmptyString; line_unknown])).2
  = writer (Run background (transport no_backend [line_ping; line_unknown])).2.
Proof.
  destruct (Run_skips_blank_lines background
    (transport no_backend [EmptyString; "  "; line_ping; EmptyString; line_unknown]))
    as (_ & _ & _ & Hw); [done|].
  rewrite Hw. by vm_compute.
Defined.

(** X16. One line, at most one backend call and at most one write, in that
    order: the effects of a pass of the loop body are nothing, a log entry,
    a write, a backend call, or a backend call followed by a write.  When
    the pass goes on to the next line after a backend call, the response
    to that call has been written. *)
Theorem Run_body_effects `{Runtime} {S W : Type} `{Sender S} `{Writer W}
    (text : string) (t : @StdioTransport S W) :
  exists tr,
    trace (Run_body text t).2 = trace t ++ tr
    /\ line_shape tr = true
    /\ ((Run_body text t).1 = Continue -> sent tr <> [] -> written tr <> []).
Proof.
  unfold Run_body. destruct (decide _).
  { exists []. by rewrite app_nil_r. }
  destruct (json_Unmarshal_JSONRPCRequest _) as [req|perr]; unfold bind.
  - destruct (dispatch_cases req t) as [(resp & t1 & -> & Ha & _)|[_ ->]].
    + unfold answers in Ha. cbn [fst snd] in Ha.
      destruct Ha as (_ & _ & _ & _ & _ & Htr).
      destruct (writeResponse resp t1) as [[w|] t2] eqn:Hw; cbn [fst snd ret].
      * apply writeResponse_failed in Hw as [_ [[data Hw]|(m & _ & _ & ->)]].
        -- rewrite Hw. destruct Htr as [[-> _]|[preq ->]].
           ++ by exists [EvWrite data (Some w)].
           ++ exists [EvSend preq; EvWrite data (Some w)].
              by rewrite <- app_assoc.
        -- destruct Htr as [[-> _]|[preq ->]].
           ++ exists []. by rewrite app_nil_r.
           ++ by exists [EvSend preq].
      * apply writeResponse_ok in Hw as (out & _ & ->).
        destruct Htr as [[-> _]|[preq ->]].
        -- by exists [EvWrite out None].
        -- exists [EvSend preq; EvWrite out None]. by rewrite <- app_assoc.
    + cbn [fst snd ret trace]. by eexists [EvLog _].
  - destruct (writeResponse _ t) as [[w|] t2] eqn:Hw; cbn [fst snd ret].
    + apply writeResponse_failed in Hw as [_ [[data ->]|(m & _ & _ & ->)]].
      * by exists [EvWrite data (Some w)].
      * exists []. by rewrite app_nil_r.
    + apply writeResponse_ok in Hw as (out & _ & ->). by exists [EvWrite out None].
Qed.

Lemma Run_body_effects_witness :
  exists preq out,
    trace (Run_body line_tools_call (transport refusing [])).2
    = [EvSend preq; EvWrite out None].
Proof.
  destruct (Run_body_effects line_tools_call (transport refusing []))
    as (tr & Htr & Hshape & Hdone).
  rewrite Htr. cbn [trace transport NewStdioTransport app].
  assert ((Run_body line_tools_call (transport refusing [])).1 = Continue) as Hc
    by (by vm_compute).
  assert (sent tr <> []) as Hs.
  { intros Hnil. apply (f_equal sent) in Htr. rewrite sent_app, Hnil in Htr.
    by vm_compute in Htr. }
  specialize (Hdone Hc Hs).
  destruct tr as [|[preq|data [e|]|msg] [|[|data' [e'|]|] [|]]]; try done.
  by exists preq, data'.
Defined.

Section BackendRequests.
Context `{Runtime} {S W : Type} `{Sender S} `{Writer W}.

Implicit Types (t : @StdioTransport S W) (req : JSONRPCRequest).

Lemma sent_after_Send {A} preq (k : Result (option PluginResponse) -> A) t :
  sent (trace (let (r, t') := sender_Send preq t in (k r, t')).2)
  = sent (trace t) ++ [preq].
Proof.
  pose proof (sender_Send_trace preq t) as (Htr & _).
  destruct (sender_Send preq t) as [r t1]. cbn [snd] in *.
  by rewrite Htr, sent_app.
Qed.

Local Ltac one_Send t :=
  unfold bind;
  match goal with
  | |- context [sender_Send ?preq t] =>
      let Htr := fresh "Htr" in
      pose proof (sender_Send_trace preq t) as (Htr & _);
      destruct (sender_Send preq t) as [[?|?] ?]; cbn [snd] in Htr;
      repeat match goal with
             | |- context [match ?x with Some _ => _ | None => _ end] => destruct x
             end;
      cbn [snd ret]; by rewrite Htr, sent_app
  end.

Lemma dispatch_sent req t :
  sent (trace (dispatch req t).2) = sent (trace t) ++ option_list (request_of req).
Proof.
  unfold dispatch, request_of.
  destruct (decide (req_Method req = "initialize")) as [Hm|?].
  { rewrite Hm. simpl. by rewrite app_nil_r. }
  destruct (decide (req_Method req = "ping")) as [Hm|?].
  { rewrite Hm. simpl. by rewrite app_nil_r. }
  destruct (decide (req_Method req = "tools/list")).
  { unfold handleToolsList. one_Send t. }
  destruct (decide (req_Method req = "tools/call")).
  { unfold handleToolsCall, bind at 1.
    destruct (toolCallParams_of req) as [params|err];
      [|cbn [snd ret option_list]; by rewrite app_nil_r].
    destruct (decide _); [cbn [snd ret option_list]; by rewrite app_nil_r|].
    destruct (toolCall_args params) as [args|err];
      [|cbn [snd ret option_list]; by rewrite app_nil_r].
    unfold tool_call_request. one_Send t. }
  destruct (decide (req_Method req = "prompts/list")).
  { unfold handlePromptsList. one_Send t. }
  destruct (decide (req_Method req = "prompts/get")).
  { unfold handlePromptsGet, bind at 1.
    destruct (promptGetParams_of req) as [params|err];
      [|cbn [snd ret option_list]; by rewrite app_nil_r].
    destruct (decide _); [cbn [snd ret option_list]; by rewrite app_nil_r|].
    unfold prompt_get_request. one_Send t. }
  destruct (String.prefix _ _); cbn [snd ret option_list].
  - unfold bind, log_Printf. cbn [snd ret trace]. rewrite sent_app. simpl.
    by rewrite !app_nil_r.
  - by rewrite app_nil_r.
Qed.

Lemma writeResponse_sent resp t :
  sent (trace (writeResponse resp t).2) = sent (trace t).
Proof.
  unfold writeResponse. destruct (json_Marshal_JSONRPCResponse resp); [|done].
  unfold writer_Write. destruct (Write _ _). cbn [snd trace].
  by rewrite sent_app, app_nil_r.
Qed.

Lemma Run_body_sent text t :
  sent (trace (Run_body text t).2)
  = sent (trace t) ++ option_list (backend_request text).
Proof.
  unfold Run_body, backend_request. destruct (decide _).
  { simpl. by rewrite app_nil_r. }
  destruct (json_Unmarshal_JSONRPCRequest _) as [req|perr]; unfold bind.
  - pose proof (dispatch_sent req t) as Hd.
    destruct (dispatch req t) as [[resp|] t1]; cbn [snd] in Hd; [|done].
    pose proof (writeResponse_sent resp t1) as Hw.
    destruct (writeResponse resp t1) as [[w|] t2]; cbn [snd ret] in *;
      by rewrite Hw, Hd.
  - match goal with |- context [writeResponse ?resp t] =>
      pose proof (writeResponse_sent resp t) as Hw;
      destruct (writeResponse resp t) as [[w|] t2] end;
      cbn [snd ret option_list] in *; by rewrite Hw, app_nil_r.
Qed.

End BackendRequests.

(** X17. The backend sees the requests of the input in input order, one
    for each line that calls for one, and which request a line calls for
    depends on that line alone, not on any earlier reply: the requests sent
    in a run are those of the first [k] lines, for some [k], and of all
    lines when the run ends without error. *)
Theorem Run_sends_in_order `{Runtime} {S W : Type} `{Sender S} `{Writer W}
    (ctx : Context) (t t' : @StdioTransport S W) (r : option error) :
  Run ctx t = (r, t') ->
  exists k,
    k <= length (tokens (reader t))
    /\ sent (trace t')
       = sent (trace t) ++ omap backend_request (take k (tokens (reader t)))
    /\ (r = None -> k = length (tokens (reader t))).
Proof.
  unfold Run. generalize 0 as i. generalize (tokens (reader t)) as toks.
  intros toks. revert t. induction toks as [|text rest IH]; intros t i.
  - simpl. intros [= <- <-]. exists 0. by rewrite app_nil_r.
  - rewrite Run_loop_cons. cbv zeta. destruct (ctx i) as [cerr|].
    { intros [= <- <-]. exists 0. cbn [trace take omap]. rewrite app_nil_r.
      split_and!; [simpl; lia|done|done]. }
    match goal with |- context [Run_body text ?t0] =>
      pose proof (Run_body_sent text t0) as Hs;
      destruct (Run_body text t0) as [[|berr] t1] end; cbn [snd trace] in Hs.
    + intros (k & Hk & Hsent & Hall)%IH. exists (Datatypes.S k). split_and!.
      * simpl. lia.
      * rewrite Hsent, Hs. rewrite <- app_assoc. f_equal. simpl.
        by destruct (backend_request text).
      * intros Hr. simpl. by rewrite Hall.
    + intros [= <- <-]. exists 1. split_and!; [simpl; lia| |done].
      rewrite Hs. simpl. by destruct (backend_request text).
Qed.

Lemma Run_sends_in_order_witness :
  map RequestId
    (sent (trace (Run background
                    (transport refusing
                       [line_tools_list; line_ping; line_tools_call_missing_name;
                        line_tools_call])).2))
  = ["stdio-lt-7"; "stdio-tc-5"].
Proof.
  destruct (Run background
    (transport refusing
       [line_tools_list; line_ping; line_tools_call_missing_name; line_tools_call]))
    as [r t'] eqn:Hrun.
  assert (r = None) as -> by (by vm_compute in Hrun; simplify_eq).
  destruct (Run_sends_in_order _ _ _ _ Hrun) as (k & _ & Hsent & Hall).
  rewrite (Hall eq_refl) in Hsent. cbn [snd]. rewrite Hsent. by vm_compute.
Defined.
